(** * Circuit builders of the quantum-image-processing package

    A shallow embedding of the circuit-builder classes [MPS], [NEQR] and
    [QuanvolutionalLayer].  The classes are thin sequences of calls into an
    external circuit library; a circuit is therefore modelled by its width
    and by the sequence of operations it has taken, and a gate call with
    an index that names no qubit raises the library's error.  Python
    objects are attribute records that start empty and are filled in by
    [__init__]; methods run in a state-and-exception monad over them. *)

From Stdlib Require Import ZArith List String Ascii Bool Lia.
Import ListNotations.

Set Warnings "-register-all".

Open Scope string_scope.
Open Scope list_scope.
Open Scope Z_scope.

(* ================================================================== *)
(** ** Python values, exceptions and the method monad *)

Module Py.

Inductive exn : Type :=
| TypeError (msg : string)
| ValueError (msg : string)
| IndexError (msg : string)
| NameError (msg : string)
| AttributeError (msg : string)
| CircuitError (msg : string).

(** The fragment of Python values the constructors can be handed.
    A float is kept as mantissa and exponent; it is only ever tested
    with [isinstance]. *)
Inductive pyval : Type :=
| PyNone
| PyBool (b : bool)
| PyInt (z : Z)
| PyFloat (mantissa exponent : Z)
| PyStr (s : string)
| PyTuple (items : list pyval)
| PyList (items : list pyval).

Inductive outcome (A : Type) : Type :=
| Ok (a : A)
| Raise (e : exn).
Arguments Ok {A} a.
Arguments Raise {A} e.

(** A method body: reads and updates [self : S], returns or raises. *)
Definition M (S A : Type) : Type := S -> outcome A * S.

Definition ret {S A} (a : A) : M S A := fun s => (Ok a, s).

Definition raise {S A} (e : exn) : M S A := fun s => (Raise e, s).

Definition bind {S A B} (c : M S A) (k : A -> M S B) : M S B :=
  fun s =>
    match c s with
    | (Ok a, s') => k a s'
    | (Raise e, s') => (Raise e, s')
    end.

Definition gets {S A} (f : S -> A) : M S A := fun s => (Ok (f s), s).

Definition modify {S} (f : S -> S) : M S unit := fun s => (Ok tt, f s).

(** [self.name] for an attribute that may not have been assigned yet. *)
Definition getattr {S A} (field : S -> option A) (name : string) : M S A :=
  fun s =>
    match field s with
    | Some a => (Ok a, s)
    | None => (Raise (AttributeError name), s)
    end.

Definition lift {S A} (o : outcome A) : M S A := fun s => (o, s).

Definition type_name (v : pyval) : string :=
  match v with
  | PyNone => "NoneType"
  | PyBool _ => "bool"
  | PyInt _ => "int"
  | PyFloat _ _ => "float"
  | PyStr _ => "str"
  | PyTuple _ => "tuple"
  | PyList _ => "list"
  end.

(** [isinstance(v, int)]: [bool] is a subclass of [int]. *)
Definition isinstance_int (v : pyval) : bool :=
  match v with
  | PyInt _ | PyBool _ => true
  | _ => false
  end.

Definition isinstance_tuple (v : pyval) : bool :=
  match v with
  | PyTuple _ => true
  | _ => false
  end.

Definition isinstance_bool (v : pyval) : bool :=
  match v with
  | PyBool _ => true
  | _ => false
  end.

(** The integer an [int] instance stands for. *)
Definition int_value (v : pyval) : Z :=
  match v with
  | PyInt z => z
  | PyBool true => 1
  | _ => 0
  end.

(** [iter(v)] run to the end: the items of a tuple or list, the
    characters of a string, a [TypeError] for anything else. *)
Definition py_iter (v : pyval) : outcome (list pyval) :=
  match v with
  | PyTuple items | PyList items => Ok items
  | PyStr s =>
      Ok (map (fun c => PyStr (String c EmptyString)) (list_ascii_of_string s))
  | _ => Raise (TypeError ("'" ++ type_name v ++ "' object is not iterable"))
  end.

(** [math.prod] over [int] instances. *)
Definition math_prod (items : list pyval) : Z :=
  fold_left (fun acc v => acc * int_value v) items 1.

(** [bool(v)], as an [if] tests it. *)
Definition truthy (v : pyval) : bool :=
  match v with
  | PyNone => false
  | PyBool b => b
  | PyInt z => negb (z =? 0)
  | PyFloat m _ => negb (m =? 0)
  | PyStr s => negb (String.length s =? 0)%nat
  | PyTuple items | PyList items => negb (List.length items =? 0)%nat
  end.

(** [min(items)] over [int] instances, as the integer it stands for. *)
Definition py_min (items : list pyval) : outcome Z :=
  match items with
  | [] => Raise (ValueError "min() arg is an empty sequence")
  | v :: rest => Ok (fold_left (fun acc w => Z.min acc (int_value w)) rest (int_value v))
  end.

(** [seq[i]] on a list or tuple, negative indices counting from the end. *)
Definition py_getitem {A} (kind : string) (items : list A) (i : Z) : outcome A :=
  let n := Z.of_nat (List.length items) in
  let j := if i <? 0 then i + n else i in
  if (j <? 0) || (n <=? j)
  then Raise (IndexError (kind ++ " index out of range"))
  else
    match nth_error items (Z.to_nat j) with
    | Some a => Ok a
    | None => Raise (IndexError (kind ++ " index out of range"))
    end.

(** [range(lo, hi)] as the list it iterates over. *)
Definition py_range (lo hi : Z) : list Z :=
  map (fun i => lo + Z.of_nat i) (seq 0 (Z.to_nat (hi - lo))).

(** A [for x in items: body] loop with no [break]. *)
Fixpoint for_each {S A} (items : list A) (body : A -> M S unit) : M S unit :=
  match items with
  | [] => ret tt
  | x :: rest => bind (body x) (fun _ => for_each rest body)
  end.

(** [enumerate(s)] over the characters of a string. *)
Definition enumerate (s : string) : list (Z * ascii) :=
  combine (py_range 0 (Z.of_nat (String.length s))) (list_ascii_of_string s).

(** The digits of the format type [b]. *)
Fixpoint bin_digits (p : positive) : string :=
  match p with
  | xH => "1"
  | xO q => bin_digits q ++ "0"
  | xI q => bin_digits q ++ "1"
  end.

Definition format_b (z : Z) : string :=
  match z with
  | Z0 => "0"
  | Zpos p => bin_digits p
  | Zneg p => "-" ++ bin_digits p
  end.

Fixpoint fill_string (c : ascii) (n : nat) : string :=
  match n with
  | O => EmptyString
  | S m => String c (fill_string c m)
  end.

(** The format spec [0>Wb]: binary digits, right-aligned in a field of
    width [W] padded with the character 0; longer texts are kept whole. *)
Definition format_0_right_b (width : nat) (z : Z) : string :=
  let digits := format_b z in
  fill_string "0"%char (width - String.length digits) ++ digits.

Declare Scope py_scope.
Delimit Scope py_scope with py.
Notation "x <- c1 ;; c2" := (bind c1 (fun x => c2))
  (at level 61, c1 at next level, right associativity) : py_scope.
Notation "c1 ;; c2" := (bind c1 (fun _ => c2))
  (at level 61, right associativity) : py_scope.

End Py.

Import Py.
Open Scope py_scope.

(* ================================================================== *)
(** ** The circuit library, as far as the builders use it *)

Module Qiskit.

(** [QuantumCircuit(n)]: [n] qubits and the operations appended so far. *)
Record QuantumCircuit (Op : Type) : Type := mkCircuit {
  num_qubits : Z;
  data : list Op
}.
Arguments mkCircuit {Op} num_qubits data.
Arguments num_qubits {Op} q.
Arguments data {Op} q.

Definition new_circuit {Op} (n : Z) : QuantumCircuit Op := mkCircuit n [].

(** A qubit is named by its index into the list of qubits, as Python
    indexes a list: of [n] qubits the indices [-n .. n - 1] name one,
    and any other index makes the library raise [CircuitError]. *)
Definition valid_index (n q : Z) : bool := (- n <=? q) && (q <? n).

Definition append {Op} (c : QuantumCircuit Op) (ops : list Op) : QuantumCircuit Op :=
  mkCircuit (num_qubits c) (data c ++ ops).

(** An element of a parameter vector, told apart from the other
    elements of its vector by its index.  The library tells parameters
    apart by object; two vectors of the same name are not told apart
    here, so the properties below speak of one vector at a time. *)
Record ParameterVectorElement : Type := mkParameter {
  vector_name : string;
  vector_index : nat
}.

(** [ParameterVector(name, length)]: the parameters [name[0]], ...,
    [name[length - 1]]. *)
Definition ParameterVector (name : string) (length : Z) : list ParameterVectorElement :=
  map (mkParameter name) (seq 0 (Z.to_nat length)).

End Qiskit.

(* ================================================================== *)
(** ** models/tensor_network_circuits/mps.py *)

Module MPS.

Import Qiskit.

Section Blocks.

(** What a gate-structure callable builds for one two-qubit block. *)
Variable Block : Type.

(** [circuit.compose(block, qubits=[...], inplace=True)]. *)
Inductive Op : Type :=
| Compose (block : Block) (qubits : list Z).

Record MPS : Type := mkMPS {
  img_dims : option pyval;
  num_qubits : option Z;
  _circuit : option (QuantumCircuit Op);
  q_reg : option (list Z)
}.

(** The object before [__init__] has assigned anything. *)
Definition new : MPS := mkMPS None None None None.

Definition set_img_dims (v : pyval) (self : MPS) : MPS :=
  mkMPS (Some v) (num_qubits self) (_circuit self) (q_reg self).
Definition set_num_qubits (n : Z) (self : MPS) : MPS :=
  mkMPS (img_dims self) (Some n) (_circuit self) (q_reg self).
Definition set_circuit (c : QuantumCircuit Op) (self : MPS) : MPS :=
  mkMPS (img_dims self) (num_qubits self) (Some c) (q_reg self).
Definition set_q_reg (q : list Z) (self : MPS) : MPS :=
  mkMPS (img_dims self) (num_qubits self) (_circuit self) (Some q).

Definition __init__ (dims : pyval) : M MPS unit :=
  items <- lift (py_iter dims) ;;
  if negb (forallb isinstance_int items) || negb (isinstance_tuple dims)
  then raise (TypeError "Input img_dims must be of the type tuple[int, int].")
  else
    if math_prod items <=? 0
    then raise (ValueError "Image dimensions cannot be zero or negative.")
    else
      modify (set_img_dims dims) ;;
      modify (set_num_qubits (math_prod items)) ;;
      n <- getattr num_qubits "num_qubits" ;;
      modify (set_circuit (new_circuit n)) ;;
      c <- getattr _circuit "_circuit" ;;
      modify (set_q_reg (py_range 0 (Qiskit.num_qubits c))).

(** The [circuit] property. *)
Definition circuit : M MPS (QuantumCircuit Op) :=
  getattr _circuit "_circuit".

(** [self.circuit.compose(block, qubits=qubits, inplace=True)].  The
    library also keeps a table of the parameter objects bound in a
    circuit and refuses a second object under a name it already holds.
    Blocks are abstract here and their parameters are not tracked, so
    the properties of [compose] are stated for objects fresh from the
    constructor, where one call binds the parameters of one vector. *)
Definition compose (block : Block) (qubits : list Z) : M MPS unit :=
  c <- circuit ;;
  modify (set_circuit (append c [Compose block qubits])).

Definition gate_structure_t : Type :=
  list ParameterVectorElement -> bool -> Block * list ParameterVectorElement.

(** The [for index in range(0, self.num_qubits - 1)] loop; its value
    is the local [param_vector_copy] when the loop ends. *)
Fixpoint backbone_loop (gate_structure : gate_structure_t)
    (complex_structure : bool) (indices : list Z)
    (param_vector_copy : list ParameterVectorElement) : M MPS (list ParameterVectorElement) :=
  match indices with
  | [] => ret param_vector_copy
  | index :: rest =>
      let '(unitary_block, param_vector_copy') :=
        gate_structure param_vector_copy complex_structure in
      compose unitary_block [index; index + 1] ;;
      backbone_loop gate_structure complex_structure rest param_vector_copy'
  end.

Definition mps_backbone (gate_structure : gate_structure_t)
    (param_vector_copy : list ParameterVectorElement) (complex_structure : bool)
    : M MPS (QuantumCircuit Op) :=
  n <- getattr num_qubits "num_qubits" ;;
  backbone_loop gate_structure complex_structure (py_range 0 (n - 1))
    param_vector_copy ;;
  circuit.

(** [TwoQubitUnitary().simple_parameterization] and
    [TwoQubitUnitary().general_parameterization]: the class is outside
    the sources at hand, so both are parameters. *)
Variable simple_parameterization : gate_structure_t.
Variable general_parameterization : gate_structure_t.

Definition simple_param_vector (n : Z) : list ParameterVectorElement :=
  ParameterVector "theta" (2 * n - 2).

Definition general_param_vector (n : Z) (complex_structure : bool)
    : list ParameterVectorElement :=
  if complex_structure
  then ParameterVector "theta" (15 * n - 2)
  else ParameterVector "theta" (6 * n - 2).

Definition mps_simple (complex_structure : bool) : M MPS (QuantumCircuit Op) :=
  n <- getattr num_qubits "num_qubits" ;;
  let param_vector := simple_param_vector n in
  let param_vector_copy := param_vector in
  mps_backbone simple_parameterization param_vector_copy complex_structure.

Definition mps_general (complex_structure : bool) : M MPS (QuantumCircuit Op) :=
  n <- getattr num_qubits "num_qubits" ;;
  let param_vector := general_param_vector n complex_structure in
  let param_vector_copy := param_vector in
  mps_backbone general_parameterization param_vector_copy complex_structure.

(** *** The layout in the words of the specification *)

(** The parameters still unused before the [i]-th block. *)
Fixpoint params_before (gs : gate_structure_t) (cs : bool)
    (pv : list ParameterVectorElement) (i : nat) : list ParameterVectorElement :=
  match i with
  | O => pv
  | S j => snd (gs (params_before gs cs pv j) cs)
  end.

(** The [i]-th block. *)
Definition block_at (gs : gate_structure_t) (cs : bool)
    (pv : list ParameterVectorElement) (i : nat) : Block :=
  fst (gs (params_before gs cs pv i) cs).

(** [count] blocks, the [i]-th on the qubit pair (i, i + 1). *)
Definition layout (gs : gate_structure_t) (cs : bool)
    (pv : list ParameterVectorElement) (count : nat) : list Op :=
  map (fun i => Compose (block_at gs cs pv i) [Z.of_nat i; Z.of_nat i + 1])
      (seq 0 count).

(** The instance that [MPS(img_dims)] hands back, if it does. *)
Definition instance (dims : pyval) (self : MPS) : Prop :=
  __init__ dims new = (Ok tt, self).

End Blocks.

Arguments Compose {Block} block qubits.
Arguments new {Block}.
Arguments img_dims {Block} m.
Arguments num_qubits {Block} m.
Arguments _circuit {Block} m.
Arguments q_reg {Block} m.
Arguments mkMPS {Block} img_dims num_qubits _circuit q_reg.

(** [img_dims] is a tuple whose elements are all ints. *)
Definition int_tuple (v : pyval) : Prop :=
  exists items, v = PyTuple items /\ forallb isinstance_int items = true.

(** [math.prod(img_dims)] for a tuple. *)
Definition prod_of (v : pyval) : Z :=
  match v with
  | PyTuple items => math_prod items
  | _ => 1
  end.

(** Modelled from the spec: [TwoQubitUnitary] is not among the sources.
    The specification speaks of parameter-vector lengths matching
    closed-form counts: a parameterization with the closed-form count
    [k] binds the next [k] parameters in its block and hands back the
    rest.  The block is identified with the parameters it binds. *)
Definition uniform_parameterization (k : nat)
    : gate_structure_t (list ParameterVectorElement) :=
  fun parameter_vector _ => (firstn k parameter_vector, skipn k parameter_vector).

(** A vector is exactly consumed by [count] blocks of [k] parameters
    when every block binds [k] of them and none is left. *)
Definition exactly_consumed (k : nat) (pv : list ParameterVectorElement)
    (count : nat) : Prop :=
  params_before _ (uniform_parameterization k) true pv count = []
  /\ Forall (fun i => List.length (block_at _ (uniform_parameterization k) true pv i) = k)
       (seq 0 count).

End MPS.


(* ================================================================== *)
(** ** data_encoder/image_representations/neqr.py *)

Module NEQR.

Import Qiskit.

(** The operations requested on the circuit: [h], [mct], and whatever
    gate the mixin's [pixel_position] applies. *)
Inductive Op : Type :=
| H (qubit : Z)
| MCT (control_qubits : list Z) (target_qubit : Z)
| Gate (name : string) (qubits : list Z).

(** The qubits an operation is applied to. *)
Definition op_qubits (op : Op) : list Z :=
  match op with
  | H qubit => [qubit]
  | MCT control_qubits target_qubit => control_qubits ++ [target_qubit]
  | Gate _ qubits => qubits
  end.

(** A circuit of [width] qubits takes an operation when every index it
    is given names a qubit. *)
Definition accepts (width : Z) (op : Op) : bool :=
  forallb (valid_index width) (op_qubits op).

Record NEQR : Type := mkNEQR {
  img_dims : option (list Z);
  pixel_vals : option (list Z);
  feature_dim : option Z;
  max_color_intensity : option Z;
  color_qubits : option Z;
  _circuit : option (QuantumCircuit Op);
  qr : option (list Z)
}.

Definition new : NEQR := mkNEQR None None None None None None None.

Definition set_img_dims (d : list Z) (self : NEQR) : NEQR :=
  mkNEQR (Some d) (pixel_vals self) (feature_dim self)
    (max_color_intensity self) (color_qubits self) (_circuit self) (qr self).
Definition set_pixel_vals (v : list Z) (self : NEQR) : NEQR :=
  mkNEQR (img_dims self) (Some v) (feature_dim self)
    (max_color_intensity self) (color_qubits self) (_circuit self) (qr self).
Definition set_feature_dim (n : Z) (self : NEQR) : NEQR :=
  mkNEQR (img_dims self) (pixel_vals self) (Some n)
    (max_color_intensity self) (color_qubits self) (_circuit self) (qr self).
Definition set_max_color_intensity (n : Z) (self : NEQR) : NEQR :=
  mkNEQR (img_dims self) (pixel_vals self) (feature_dim self)
    (Some n) (color_qubits self) (_circuit self) (qr self).
Definition set_color_qubits (n : Z) (self : NEQR) : NEQR :=
  mkNEQR (img_dims self) (pixel_vals self) (feature_dim self)
    (max_color_intensity self) (Some n) (_circuit self) (qr self).
Definition set_circuit (c : QuantumCircuit Op) (self : NEQR) : NEQR :=
  mkNEQR (img_dims self) (pixel_vals self) (feature_dim self)
    (max_color_intensity self) (color_qubits self) (Some c) (qr self).
Definition set_qr (q : list Z) (self : NEQR) : NEQR :=
  mkNEQR (img_dims self) (pixel_vals self) (feature_dim self)
    (max_color_intensity self) (color_qubits self) (_circuit self) (Some q).

(** [math.prod] over a tuple of ints. *)
Definition prod (dims : list Z) : Z := fold_left Z.mul dims 1.

(** [int(np.ceil(np.sqrt(x)))]: the square root of a negative number is
    NaN, which [int] refuses. *)
Definition ceil_sqrt (x : Z) : outcome Z :=
  if x <? 0
  then Raise (ValueError "cannot convert float NaN to integer")
  else Ok (Z.sqrt_up x).

(** [int(np.ceil(math.log(x, 2)))] for [x >= 1]. *)
Definition ceil_log2 (x : Z) : Z := Z.log2_up x.

Section Inherited.

(** Modelled from the spec: [ImageEmbedding.__init__] is not among the
    sources.  The specification only says that constructors make type
    and range checks on the image dimensions and the pixel values and
    raise standard errors; the check itself is left open, and on success
    the two arguments are stored as they are. *)
Variable image_embedding_check : list Z -> list Z -> option exn.

Definition ImageEmbedding__init__ (dims vals : list Z) : M NEQR unit :=
  match image_embedding_check dims vals with
  | Some e => raise e
  | None =>
      modify (set_img_dims dims) ;;
      modify (set_pixel_vals vals)
  end.

Definition all_equal (dims : list Z) : bool :=
  match dims with
  | [] => true
  | d :: rest => forallb (Z.eqb d) rest
  end.

(** Modelled from the spec: [ImageMixin.validate_square_images] is not
    among the sources.  The specification says image dimensions must be
    square, and the tests expect a [ValueError] saying that only square
    images are supported when the dimensions differ. *)
Definition validate_square_images : M NEQR unit :=
  dims <- getattr img_dims "img_dims" ;;
  if all_equal dims
  then ret tt
  else raise (ValueError
    "NEQR supports square images only. Input img_dims must have same dimensions.").

(** Modelled from the spec: [ImageMixin.pixel_position] is not among the
    sources.  The specification describes the embedding as gate
    applications on the circuit; which gates a position text produces is
    left open. *)
Variable pixel_position_ops : string -> list Op.

Definition circuit : M NEQR (QuantumCircuit Op) :=
  getattr _circuit "_circuit".

(** One gate call on the stored circuit: the gate is appended, or the
    library raises [CircuitError] for an index that names no qubit and
    the circuit stays as it was. *)
Definition apply_op (op : Op) : M NEQR unit :=
  c <- circuit ;;
  if accepts (Qiskit.num_qubits c) op
  then modify (set_circuit (append c [op]))
  else raise (CircuitError "Index out of range.").

(** Gate calls one after the other. *)
Definition append_ops (ops : list Op) : M NEQR unit :=
  for_each ops apply_op.

Definition pixel_position (pixel_pos_binary : string) : M NEQR unit :=
  append_ops (pixel_position_ops pixel_pos_binary).

Definition __init__ (dims vals : list Z) (max_color : Z) : M NEQR unit :=
  ImageEmbedding__init__ dims vals ;;
  validate_square_images ;;
  if (max_color <? 0) || (max_color >? 255)
  then raise (ValueError
    "Maximum color intensity cannot be less than 0 or greater than 255.")
  else
    d <- getattr img_dims "img_dims" ;;
    fd <- lift (ceil_sqrt (prod d)) ;;
    modify (set_feature_dim fd) ;;
    modify (set_max_color_intensity (max_color + 1)) ;;
    mci <- getattr max_color_intensity "max_color_intensity" ;;
    modify (set_color_qubits (ceil_log2 mci)) ;;
    fd <- getattr feature_dim "feature_dim" ;;
    cq <- getattr color_qubits "color_qubits" ;;
    modify (set_circuit (new_circuit (fd + cq))) ;;
    c <- getattr _circuit "_circuit" ;;
    modify (set_qr (py_range 0 (Qiskit.num_qubits c))).

Definition pixel_value (pixel_pos : Z) : M NEQR unit :=
  vals <- getattr pixel_vals "pixel_vals" ;;
  v <- lift (py_getitem "list" vals pixel_pos) ;;
  let color_byte := format_0_right_b 8 v in
  fd <- getattr feature_dim "feature_dim" ;;
  let control_qubits := py_range 0 fd in
  for_each (enumerate color_byte) (fun '(index, color) =>
    if Ascii.eqb color "1"
    then
      fd' <- getattr feature_dim "feature_dim" ;;
      append_ops [MCT control_qubits (fd' + index)]
    else ret tt).

Definition build_circuit : M NEQR (QuantumCircuit Op) :=
  fd <- getattr feature_dim "feature_dim" ;;
  for_each (py_range 0 fd) (fun i => append_ops [H i]) ;;
  d <- getattr img_dims "img_dims" ;;
  let num_theta := prod d in
  for_each (py_range 0 num_theta) (fun pixel =>
    let pixel_pos_binary := format_0_right_b 2 pixel in
    pixel_position pixel_pos_binary ;;
    pixel_value pixel ;;
    pixel_position pixel_pos_binary) ;;
  circuit.

(** The instance that [NEQR(img_dims, pixel_vals, max_color_intensity)]
    hands back, if it does. *)
Definition instance (dims vals : list Z) (max_color : Z) (self : NEQR) : Prop :=
  __init__ dims vals max_color new = (Ok tt, self).

End Inherited.

(** *** The circuit in the words of the specification *)

(** The bits of a byte that are set, most significant first, as the
    indices 0..7 at which they stand. *)
Definition set_bits (v : Z) : list Z :=
  filter (fun i => Z.testbit v (7 - i)) (py_range 0 8).

(** The positions of a text at which the character 1 stands. *)
Definition one_positions (s : string) : list Z :=
  map fst (filter (fun p => Ascii.eqb (snd p) "1") (enumerate s)).

(** Whether the colour text of [v] has its ones where the bits of [v]
    are set. *)
Definition byte_checked (v : Z) : bool :=
  if list_eq_dec Z.eq_dec (one_positions (format_0_right_b 8 v)) (set_bits v)
  then true else false.

(** One multi-controlled X per listed bit, controlled by the position
    qubits [0 .. fd - 1] and aimed at qubit [fd + bit]. *)
Definition color_gates (fd : Z) (bits : list Z) : list Op :=
  map (fun i => MCT (py_range 0 fd) (fd + i)) bits.

(** What one pixel contributes: its position embedding, its colour
    gates, and the position embedding again. *)
Definition pixel_block (position_ops : string -> list Op) (fd : Z)
    (vals : list Z) (pixel : Z) : list Op :=
  let position := position_ops (format_0_right_b 2 pixel) in
  position
  ++ color_gates fd (one_positions
       (format_0_right_b 8 (nth (Z.to_nat pixel) vals 0)))
  ++ position.

(** The longest prefix whose items all pass. *)
Fixpoint take_while {A : Type} (keep : A -> bool) (items : list A) : list A :=
  match items with
  | [] => []
  | x :: rest => if keep x then x :: take_while keep rest else []
  end.

(** Every gate of the encoding lands on a qubit: the circuit has the
    position qubits, at least one, and eight colour qubits after them, the first
    [pixels] pixel values are bytes, and the position embedding of each
    of these pixels stays on the circuit. *)
Definition encodable (position_ops : string -> list Op) (fd width : Z)
    (vals : list Z) (pixels : Z) : Prop :=
  1 <= fd
  /\ fd + 8 <= width
  /\ forall pixel, 0 <= pixel < pixels ->
       0 <= nth (Z.to_nat pixel) vals 0 <= 255
       /\ forallb (accepts width) (position_ops (format_0_right_b 2 pixel)) = true.

(** How a sequence of gate calls on a circuit of [width] qubits can
    end: all taken, the circuit keeping its width, or [CircuitError]. *)
Definition taken_or_refused (self : NEQR) (width : Z)
    (r : outcome unit * NEQR) : Prop :=
  (exists c, r = (Ok tt, set_circuit c self) /\ Qiskit.num_qubits c = width)
  \/ (exists msg s, r = (Raise (CircuitError msg), s)).

(** Reading a text of binary digits back, most significant first. *)
Fixpoint parse_binary_from (acc : Z) (s : string) : Z :=
  match s with
  | EmptyString => acc
  | String c rest =>
      parse_binary_from (2 * acc + (if Ascii.eqb c "1" then 1 else 0)) rest
  end.

Definition parse_binary (s : string) : Z := parse_binary_from 0 s.

(** [k] is the ceiling of the square root of [x]. *)
Definition is_ceil_sqrt (x k : Z) : Prop :=
  0 <= k /\ x <= k * k /\ forall j, 0 <= j -> x <= j * j -> k <= j.

(** [k] is the ceiling of the binary logarithm of [y]. *)
Definition is_ceil_log2 (y k : Z) : Prop :=
  0 <= k /\ y <= 2 ^ k /\ forall j, 0 <= j -> y <= 2 ^ j -> k <= j.

(** The object once [ImageEmbedding.__init__] has run. *)
Definition embedded (dims vals : list Z) : NEQR :=
  mkNEQR (Some dims) (Some vals) None None None None None.

(** The object once the whole constructor has run. *)
Definition constructed (dims vals : list Z) (max_color : Z) : NEQR :=
  let fd := Z.sqrt_up (prod dims) in
  let cq := Z.log2_up (max_color + 1) in
  mkNEQR (Some dims) (Some vals) (Some fd) (Some (max_color + 1)) (Some cq)
    (Some (new_circuit (fd + cq))) (Some (py_range 0 (fd + cq))).

End NEQR.


(* ================================================================== *)
(** ** neural_networks/layers/quanvolutional_layer.py *)

Module QuanvolutionalLayer.

Record QuanvolutionalLayer : Type := mkLayer {
  img_dims : option pyval;
  num_qubits : option Z;
  filter_size : option pyval;
  stride : option pyval;
  random : option pyval;
  pixel_vals : option pyval
}.

Definition new : QuanvolutionalLayer := mkLayer None None None None None None.

Definition set_img_dims (v : pyval) (self : QuanvolutionalLayer) :=
  mkLayer (Some v) (num_qubits self) (filter_size self) (stride self)
    (random self) (pixel_vals self).
Definition set_num_qubits (n : Z) (self : QuanvolutionalLayer) :=
  mkLayer (img_dims self) (Some n) (filter_size self) (stride self)
    (random self) (pixel_vals self).
Definition set_filter_size (v : pyval) (self : QuanvolutionalLayer) :=
  mkLayer (img_dims self) (num_qubits self) (Some v) (stride self)
    (random self) (pixel_vals self).
Definition set_stride (v : pyval) (self : QuanvolutionalLayer) :=
  mkLayer (img_dims self) (num_qubits self) (filter_size self) (Some v)
    (random self) (pixel_vals self).
Definition set_random (v : pyval) (self : QuanvolutionalLayer) :=
  mkLayer (img_dims self) (num_qubits self) (filter_size self) (stride self)
    (Some v) (pixel_vals self).
Definition set_pixel_vals (v : pyval) (self : QuanvolutionalLayer) :=
  mkLayer (img_dims self) (num_qubits self) (filter_size self) (stride self)
    (random self) (Some v).

(** What a name can be bound to where [build_layer] runs. *)
Inductive object : Type :=
| Value (v : pyval)
| Self
| Global (name : string).

(** The names bound at module level: the module attributes every module
    has, and the names the file imports or defines. *)
Definition module_globals : list string :=
  ["__name__"; "__doc__"; "__package__"; "__loader__"; "__spec__";
   "__file__"; "__cached__"; "__builtins__";
   "annotations"; "math"; "Optional"; "QuantumCircuit"; "random_circuit";
   "BaseLayer"; "ImageEmbedding"; "produce_sub_images";
   "QuanvolutionalLayer"].

(** The built-in functions, constants and exception names the
    fragment uses. *)
Definition builtins : list string :=
  ["abs"; "aiter"; "all"; "anext"; "any"; "ascii"; "bin"; "bool";
   "breakpoint"; "bytearray"; "bytes"; "callable"; "chr"; "classmethod";
   "compile"; "complex"; "delattr"; "dict"; "dir"; "divmod"; "enumerate";
   "eval"; "exec"; "filter"; "float"; "format"; "frozenset"; "getattr";
   "globals"; "hasattr"; "hash"; "help"; "hex"; "id"; "input"; "int";
   "isinstance"; "issubclass"; "iter"; "len"; "list"; "locals"; "map";
   "max"; "memoryview"; "min"; "next"; "object"; "oct"; "open"; "ord";
   "pow"; "print"; "property"; "range"; "repr"; "reversed"; "round";
   "set"; "setattr"; "slice"; "sorted"; "staticmethod"; "str"; "sum";
   "super"; "tuple"; "type"; "vars"; "zip"; "__import__";
   "True"; "False"; "None"; "NotImplemented"; "Ellipsis"; "__debug__";
   "TypeError"; "ValueError"; "IndexError"; "NameError"; "AttributeError"].

(** Loading a name inside a function: local scope, then module scope,
    then the built-ins, else [NameError]. *)
Definition load_name (locals : list (string * object)) (name : string)
    : outcome object :=
  match find (fun b => String.eqb (fst b) name) locals with
  | Some b => Ok (snd b)
  | None =>
      if existsb (String.eqb name) (module_globals ++ builtins)
      then Ok (Global name)
      else Raise (NameError ("name '" ++ name ++ "' is not defined"))
  end.

Section Imported.

(** [BaseLayer.__init__(self, num_qubits)] is not among the sources: it
    is taken as a check that may raise, after which the layer keeps
    [num_qubits]. *)
Variable base_layer_check : Z -> option exn.

Definition BaseLayer__init__ (n : Z) : M QuanvolutionalLayer unit :=
  match base_layer_check n with
  | Some e => raise e
  | None => modify (set_num_qubits n)
  end.

(** [produce_sub_images(filter_size, pixel_vals)] is not among the
    sources: it returns some value or raises. *)
Variable produce_sub_images : pyval -> pyval -> outcome pyval.

(** [qiskit.circuit.random.random_circuit(num_qubits, depth,
    max_operands, measure)]: draws from a generator state and returns
    a circuit. *)
Variable RandomState : Type.
Variable RandomCircuit : Type.
Variable random_circuit :
  Z -> Z -> Z -> bool -> RandomState -> RandomCircuit * RandomState.

(** The [embedding] argument is never read and is left out. *)
Definition __init__ (dims filter stride_arg vals random_arg : pyval)
    : M QuanvolutionalLayer unit :=
  items <- lift (py_iter dims) ;;
  if negb (forallb isinstance_int items) || negb (isinstance_tuple dims)
  then raise (TypeError "Input img_dims must be of the type tuple[int, ...].")
  else
    modify (set_img_dims dims) ;;
    BaseLayer__init__ (math_prod items) ;;
    sizes <- (if negb (isinstance_tuple filter)
              then raise (TypeError
                "The input filter_size must be of the type tuple[int, int].")
              else lift (py_iter filter)) ;;
    if negb (forallb isinstance_int sizes)
    then raise (TypeError
      "The input filter_size must be of the type tuple[int, int].")
    else
      size0 <- lift (py_getitem "tuple" sizes 0) ;;
      stored <- getattr img_dims "img_dims" ;;
      stored_items <- lift (py_iter stored) ;;
      smallest <- lift (py_min stored_items) ;;
      if int_value size0 >? smallest
      then raise (ValueError
        "The filter_size must be less than or equal to the minimum image dimension.")
      else
        modify (set_filter_size filter) ;;
        if negb (isinstance_int stride_arg)
        then raise (TypeError "The input stride must be of the type int.")
        else
          too_large <- (if int_value stride_arg <=? 0
                        then ret true
                        else
                          smallest' <- lift (py_min items) ;;
                          ret (int_value stride_arg >? smallest')) ;;
          if (too_large : bool)
          then raise (ValueError
            "The input stride must be at least 1 and less than or equal to the minimum image dimension.")
          else
            modify (set_stride stride_arg) ;;
            if negb (isinstance_bool random_arg)
            then raise (TypeError "The input random must be of the type bool.")
            else
              modify (set_random random_arg) ;;
              modify (set_pixel_vals vals).

(** A method that falls off its end returns [None]. *)
Definition build_sub_circuits (sub_image : pyval) (g : RandomState)
    : M QuanvolutionalLayer (option RandomCircuit * RandomState) :=
  r <- getattr random "random" ;;
  if truthy r
  then
    let '(sub_circuit, g') := random_circuit 1 2 3 true g in
    ret (Some sub_circuit, g')
  else ret (None, g).

Definition build_layer : M QuanvolutionalLayer (object * list pyval) :=
  fs <- getattr filter_size "filter_size" ;;
  pv <- getattr pixel_vals "pixel_vals" ;;
  sub_images <- lift (produce_sub_images fs pv) ;;
  let locals := [("self", Self); ("sub_images", Value sub_images)] in
  circuit_list <- lift (load_name locals "circuit_list") ;;
  ret (circuit_list, []).

(** The instance the constructor hands back, if it does. *)
Definition instance (dims filter stride_arg vals random_arg : pyval)
    (self : QuanvolutionalLayer) : Prop :=
  __init__ dims filter stride_arg vals random_arg new = (Ok tt, self).

End Imported.

(** The object when the stride check is reached: [img_dims],
    [num_qubits] and [filter_size] are assigned. *)
Definition before_stride (items sizes : list pyval) : QuanvolutionalLayer :=
  mkLayer (Some (PyTuple items)) (Some (math_prod items))
    (Some (PyTuple sizes)) None None None.

End QuanvolutionalLayer.


(* ================================================================== *)
(** * Properties *)

(** ** The MPS ansatz *)

Module MPSProofs.

Import Qiskit MPS.

Lemma forallb_false_not_int_tuple : forall items,
  forallb isinstance_int items = false -> ~ int_tuple (PyTuple items).
Proof.
  intros items Hf [items' [Heq Hall]].
  injection Heq as <-. congruence.
Qed.

Lemma int_tuple_inv : forall v,
  int_tuple v ->
  exists items, v = PyTuple items /\ forallb isinstance_int items = true.
Proof. intros v H. exact H. Qed.

(** What the constructor does on a tuple of ints. *)
Lemma init_on_int_tuple : forall (Block : Type) items,
  forallb isinstance_int items = true ->
  __init__ Block (PyTuple items) new =
    if math_prod items <=? 0
    then (Raise (ValueError "Image dimensions cannot be zero or negative."), new)
    else (Ok tt,
          mkMPS (Some (PyTuple items)) (Some (math_prod items))
                (Some (new_circuit (math_prod items)))
                (Some (py_range 0 (math_prod items)))).
Proof.
  intros Block items Hall.
  unfold __init__, bind, lift. simpl. rewrite Hall. simpl.
  destruct (math_prod items <=? 0); reflexivity.
Qed.

(** What the constructor does on anything else. *)
Lemma init_on_other : forall (Block : Type) v,
  ~ int_tuple v ->
  exists msg, __init__ Block v new = (Raise (TypeError msg), new).
Proof.
  intros Block v Hnot.
  destruct v as [ | b | z | m e | s | items | items ];
    try (eexists; reflexivity).
  - (* str *)
    unfold __init__, bind, lift. simpl.
    rewrite orb_true_r. eexists; reflexivity.
  - (* tuple *)
    destruct (forallb isinstance_int items) eqn:Hall.
    + exfalso. apply Hnot. exists items. split; [reflexivity | exact Hall].
    + unfold __init__, bind, lift. simpl. rewrite Hall. simpl.
      eexists; reflexivity.
  - (* list *)
    unfold __init__, bind, lift. simpl.
    rewrite orb_true_r. eexists; reflexivity.
Qed.

Lemma math_prod_from : forall items a,
  fold_left (fun acc v => acc * int_value v) items a
  = a * fold_right Z.mul 1 (map int_value items).
Proof.
  induction items as [ | v items IH ]; intros a; simpl.
  - lia.
  - rewrite IH. lia.
Qed.

(** [math.prod] multiplies the entries, whichever end it starts from. *)
Lemma math_prod_fold_right : forall items,
  math_prod items = fold_right Z.mul 1 (map int_value items).
Proof.
  intros items. unfold math_prod. rewrite math_prod_from. lia.
Qed.

(** C7: [MPS(img_dims)] raises a [TypeError] exactly when [img_dims] is
    not a tuple of ints, a [ValueError] exactly when it is a tuple of
    ints whose entries multiply to zero or less, and otherwise succeeds:
    the stored circuit is empty and has exactly as many qubits as the
    entries multiply to, [num_qubits] is that number and [q_reg] lists
    the qubits.  When it raises, no attribute has been assigned. *)
Theorem mps_init_outcome : forall (Block : Type) (v : pyval),
  let r := __init__ Block v new in
  let product := fun items => fold_right Z.mul 1 (map int_value items) in
  ((exists msg, fst r = Raise (TypeError msg)) <-> ~ int_tuple v)
  /\ ((exists msg, fst r = Raise (ValueError msg))
      <-> exists items,
            v = PyTuple items /\ forallb isinstance_int items = true
            /\ product items <= 0)
  /\ (forall items,
      v = PyTuple items -> forallb isinstance_int items = true ->
      0 < product items ->
      fst r = Ok tt
      /\ img_dims (snd r) = Some v
      /\ num_qubits (snd r) = Some (product items)
      /\ q_reg (snd r) = Some (py_range 0 (product items))
      /\ exists c,
           _circuit (snd r) = Some c
           /\ Qiskit.num_qubits c = product items
           /\ data c = [])
  /\ (forall e, fst r = Raise e ->
      snd r = new /\ exists msg, e = TypeError msg \/ e = ValueError msg).
Proof.
  intros Block v r product.
  assert (Hcases :
    (~ int_tuple v /\ exists msg, r = (Raise (TypeError msg), new))
    \/ (exists items, v = PyTuple items
          /\ forallb isinstance_int items = true
          /\ r = if product items <=? 0
                 then (Raise (ValueError "Image dimensions cannot be zero or negative."), new)
                 else (Ok tt,
                       mkMPS (Some (PyTuple items)) (Some (product items))
                             (Some (new_circuit (product items)))
                             (Some (py_range 0 (product items)))))).
  { destruct v as [ | b | z | m e | s | items | items ].
    1-5,7: left; split;
      [ intros [xs [Heq _]]; discriminate
      | apply init_on_other; intros [xs [Heq _]]; discriminate ].
    destruct (forallb isinstance_int items) eqn:Hall.
    - right. exists items. repeat split; trivial.
      unfold product. rewrite <- math_prod_fold_right.
      apply init_on_int_tuple. exact Hall.
    - left. split.
      + apply forallb_false_not_int_tuple. exact Hall.
      + apply init_on_other. apply forallb_false_not_int_tuple. exact Hall. }
  destruct Hcases as [[Hnot [msg Hr]] | [items [Hv [Hall Hr]]]].
  - rewrite Hr. simpl. split; [ | split; [ | split ] ].
    + split; [ intros _; exact Hnot | intros _; exists msg; reflexivity ].
    + split; [ intros [m H]; discriminate | ].
      intros [items [Hv [Hall _]]]. exfalso. apply Hnot.
      exists items. split; assumption.
    + intros items Hv Hall _. exfalso. apply Hnot.
      exists items. split; assumption.
    + intros e H. injection H as <-.
      split; [ reflexivity | exists msg; left; reflexivity ].
  - assert (Hit : int_tuple v) by (exists items; split; assumption).
    subst v. rewrite Hr.
    destruct (product items <=? 0) eqn:Hle; simpl.
    + apply Z.leb_le in Hle. split; [ | split; [ | split ] ].
      * split; [ intros [m H]; discriminate | intros Hn; contradiction ].
      * split; [ intros _ | intros _; eexists; reflexivity ].
        exists items. repeat split; assumption.
      * intros items' Heq _ Hpos. injection Heq as <-. lia.
      * intros e H. injection H as <-.
        split; [ reflexivity | eexists; right; reflexivity ].
    + apply Z.leb_gt in Hle. split; [ | split; [ | split ] ].
      * split; [ intros [m H]; discriminate | intros Hn; contradiction ].
      * split; [ intros [m H]; discriminate | ].
        intros [items' [Heq [_ H]]]. injection Heq as <-. lia.
      * intros items' Heq _ _. injection Heq as <-.
        repeat split. exists (new_circuit (product items)).
        repeat split.
      * intros e H. discriminate.
Qed.

(** A 2 x 3 image gives six qubits; a list instead of a tuple and a
    zero dimension are refused. *)
Lemma mps_init_outcome_witness :
  let run := fun v => __init__ (list ParameterVectorElement) v new in
  (fst (run (PyTuple [PyInt 2; PyInt 3])) = Ok tt
   /\ num_qubits (snd (run (PyTuple [PyInt 2; PyInt 3]))) = Some 6
   /\ q_reg (snd (run (PyTuple [PyInt 2; PyInt 3]))) = Some [0; 1; 2; 3; 4; 5]
   /\ exists c,
        _circuit (snd (run (PyTuple [PyInt 2; PyInt 3]))) = Some c
        /\ Qiskit.num_qubits c = 6
        /\ data c = [])
  /\ (exists msg, fst (run (PyList [PyInt 2; PyInt 3])) = Raise (TypeError msg))
  /\ (exists msg, fst (run (PyTuple [PyInt 2; PyInt 0])) = Raise (ValueError msg)).
Proof.
  intros run. split; [ | split ].
  - destruct (mps_init_outcome (list ParameterVectorElement)
                (PyTuple [PyInt 2; PyInt 3])) as [_ [_ [Hok _]]].
    destruct (Hok [PyInt 2; PyInt 3] eq_refl eq_refl)
      as [H1 [_ [H3 [H4 H5]]]].
    + reflexivity.
    + split; [ exact H1 | split; [ exact H3 | split; [ exact H4 | exact H5 ] ] ].
  - apply (mps_init_outcome (list ParameterVectorElement)
             (PyList [PyInt 2; PyInt 3])).
    intros [items [H _]]. discriminate.
  - apply (mps_init_outcome (list ParameterVectorElement)
             (PyTuple [PyInt 2; PyInt 0])).
    exists [PyInt 2; PyInt 0].
    split; [ reflexivity | split; [ reflexivity | ] ].
    vm_compute. discriminate.
Defined.

(** *** The backbone loop *)

Section Backbone.

Variable Block : Type.
Variable gs : gate_structure_t Block.
Variable cs : bool.
Variable pv : list ParameterVectorElement.

Lemma set_circuit_twice : forall (c1 c2 : QuantumCircuit (Op Block)) self,
  set_circuit Block c2 (set_circuit Block c1 self) = set_circuit Block c2 self.
Proof. intros c1 c2 self. reflexivity. Qed.

Lemma append_nothing : forall (c : QuantumCircuit (Op Block)) self,
  _circuit self = Some c ->
  set_circuit Block (append c []) self = self.
Proof.
  intros [n d] [dims nq circ reg] H. simpl in H. subst circ.
  unfold set_circuit, append. simpl. rewrite app_nil_r. reflexivity.
Qed.

Lemma append_blocks_assoc : forall (c : QuantumCircuit (Op Block)) ops1 ops2,
  append (append c ops1) ops2 = append c (ops1 ++ ops2).
Proof.
  intros c ops1 ops2. unfold append. simpl. rewrite app_assoc. reflexivity.
Qed.

(** One pass of the loop from block [start] on: it appends the blocks
    [start], ..., [start + count - 1] of the layout and ends with the
    parameters left before block [start + count]. *)
Lemma backbone_loop_run : forall count start self c,
  _circuit self = Some c ->
  backbone_loop Block gs cs
    (map (fun i => 0 + Z.of_nat i) (seq start count))
    (params_before Block gs cs pv start) self
  = (Ok (params_before Block gs cs pv (start + count)),
     set_circuit Block
       (append c
          (map (fun i => Compose (block_at Block gs cs pv i)
                                 [Z.of_nat i; Z.of_nat i + 1])
               (seq start count)))
       self).
Proof.
  induction count as [ | count IH ]; intros start self c Hc.
  - simpl. rewrite Nat.add_0_r. rewrite append_nothing by exact Hc.
    reflexivity.
  - simpl seq. simpl map. simpl backbone_loop.
    destruct (gs (params_before Block gs cs pv start) cs) as [blk rest] eqn:E.
    unfold bind at 1. unfold compose, bind, circuit, getattr, modify.
    rewrite Hc.
    assert (Hrest : rest = params_before Block gs cs pv (S start))
      by (simpl; rewrite E; reflexivity).
    assert (Hblk : blk = block_at Block gs cs pv start)
      by (unfold block_at; rewrite E; reflexivity).
    rewrite Hrest.
    rewrite (IH (S start) _ (append c [Compose blk [Z.of_nat start; Z.of_nat start + 1]]))
      by reflexivity.
    rewrite set_circuit_twice, append_blocks_assoc.
    rewrite Hblk. simpl app.
    replace (S start + count)%nat with (start + S count)%nat by lia.
    reflexivity.
Qed.

Lemma layout_length : forall count,
  List.length (layout Block gs cs pv count) = count.
Proof.
  intros count. unfold layout. rewrite length_map, length_seq. reflexivity.
Qed.


End Backbone.

(** The whole method: the loop over [range(0, n - 1)], then the
    stored circuit. *)
Lemma mps_backbone_run :
  forall (Block : Type) (gs : gate_structure_t Block)
         (pv : list ParameterVectorElement) (cs : bool)
         (self : MPS Block) (n : Z) (c : QuantumCircuit (Op Block)),
  num_qubits self = Some n ->
  _circuit self = Some c ->
  mps_backbone Block gs pv cs self
  = (Ok (append c (layout Block gs cs pv (Z.to_nat (n - 1)))),
     set_circuit Block (append c (layout Block gs cs pv (Z.to_nat (n - 1)))) self).
Proof.
  intros Block gs pv cs self n c Hn Hc.
  unfold mps_backbone, bind at 1. unfold getattr at 1. rewrite Hn.
  unfold bind at 1. unfold py_range. rewrite Z.sub_0_r.
  change pv with (params_before Block gs cs pv 0) at 1.
  rewrite (backbone_loop_run Block gs cs pv _ 0%nat self c Hc).
  unfold circuit, getattr. simpl. reflexivity.
Qed.

(** The loop alone, over [range(0, n - 1)]: its value is what is left
    of the parameters after the last block. *)
Lemma backbone_loop_on :
  forall (Block : Type) (gs : gate_structure_t Block)
         (pv : list ParameterVectorElement) (cs : bool)
         (self : MPS Block) (n : Z) (c : QuantumCircuit (Op Block)),
  _circuit self = Some c ->
  backbone_loop Block gs cs (py_range 0 (n - 1)) pv self
  = (Ok (params_before Block gs cs pv (Z.to_nat (n - 1))),
     set_circuit Block (append c (layout Block gs cs pv (Z.to_nat (n - 1)))) self).
Proof.
  intros Block gs pv cs self n c Hc.
  unfold py_range. rewrite Z.sub_0_r.
  change pv with (params_before Block gs cs pv 0) at 1.
  rewrite (backbone_loop_run Block gs cs pv _ 0%nat self c Hc).
  reflexivity.
Qed.

(** What a successful construction looks like. *)
Lemma mps_instance_inv : forall (Block : Type) dims (self : MPS Block),
  instance Block dims self ->
  exists items,
    dims = PyTuple items
    /\ forallb isinstance_int items = true
    /\ 0 < math_prod items
    /\ self = mkMPS (Some dims) (Some (math_prod items))
                (Some (new_circuit (math_prod items)))
                (Some (py_range 0 (math_prod items))).
Proof.
  intros Block dims self H. unfold instance in H.
  assert (Hother : ~ int_tuple dims -> False).
  { intros Hn. destruct (init_on_other Block dims Hn) as [msg Hr].
    rewrite Hr in H. discriminate. }
  destruct dims as [ | b | z | m e | s | items | items ];
    try (exfalso; apply Hother; intros [xs [Heq _]]; discriminate).
  destruct (forallb isinstance_int items) eqn:Hall.
  - rewrite (init_on_int_tuple Block items Hall) in H.
    destruct (math_prod items <=? 0) eqn:Hle; [ discriminate | ].
    apply Z.leb_gt in Hle. injection H as <-.
    exists items. repeat split; trivial.
  - exfalso. apply Hother. apply forallb_false_not_int_tuple. exact Hall.
Qed.



(** *** Parameter bookkeeping *)

Lemma ParameterVector_length : forall name len,
  List.length (ParameterVector name len) = Z.to_nat len.
Proof.
  intros name len. unfold ParameterVector.
  rewrite length_map, length_seq. reflexivity.
Qed.

Lemma uniform_remaining : forall k cs pv i,
  List.length (params_before _ (uniform_parameterization k) cs pv i)
  = (List.length pv - i * k)%nat.
Proof.
  intros k cs pv i. induction i as [ | i IH ].
  - simpl. lia.
  - simpl. rewrite length_skipn, IH. lia.
Qed.

Lemma uniform_block : forall k cs pv i,
  List.length (block_at _ (uniform_parameterization k) cs pv i)
  = Nat.min k (List.length pv - i * k).
Proof.
  intros k cs pv i. unfold block_at. simpl.
  rewrite length_firstn, uniform_remaining. reflexivity.
Qed.

(** Exact consumption is the equation between the length and the
    closed-form count. *)
Lemma exactly_consumed_iff : forall k pv count,
  exactly_consumed k pv count <-> List.length pv = (count * k)%nat.
Proof.
  intros k pv count. unfold exactly_consumed. split.
  - intros [Hnil Hall].
    apply (f_equal (@List.length _)) in Hnil.
    rewrite uniform_remaining in Hnil. simpl in Hnil.
    destruct count as [ | count ].
    + simpl in *. lia.
    + rewrite Forall_forall in Hall.
      specialize (Hall count). rewrite uniform_block in Hall.
      assert (In count (seq 0 (S count))) by (apply in_seq; lia).
      specialize (Hall H). nia.
  - intros Hlen. split.
    + apply length_zero_iff_nil. rewrite uniform_remaining. lia.
    + apply Forall_forall. intros i Hi. apply in_seq in Hi.
      rewrite uniform_block. nia.
Qed.

(** [mps_simple]: the [2 * n - 2] parameters are exactly the two per
    block that [n - 1] blocks take. *)
Lemma mps_simple_exactly_consumed : forall n,
  1 <= n ->
  List.length (simple_param_vector n) = Z.to_nat (2 * n - 2)
  /\ exactly_consumed 2 (simple_param_vector n) (Z.to_nat (n - 1)).
Proof.
  intros n Hn. unfold simple_param_vector.
  split; [ apply ParameterVector_length | ].
  apply exactly_consumed_iff. rewrite ParameterVector_length. lia.
Qed.

Lemma general_param_vector_length : forall n cs,
  List.length (general_param_vector n cs)
  = Z.to_nat (if cs then 15 * n - 2 else 6 * n - 2).
Proof.
  intros n [ | ]; unfold general_param_vector; apply ParameterVector_length.
Qed.

(** [mps_general]: with fifteen (complex) or six (real) parameters per
    block, thirteen or four of the allocated parameters are never
    handed to a block. *)
Lemma mps_general_leftover : forall (n : Z) (cs : bool),
  1 <= n ->
  List.length
    (params_before _ (uniform_parameterization (if cs then 15 else 6)%nat) cs
       (general_param_vector n cs) (Z.to_nat (n - 1)))
  = (if cs then 13 else 4)%nat.
Proof.
  intros n cs Hn. rewrite uniform_remaining, general_param_vector_length.
  destruct cs; lia.
Qed.

(** C1: [mps_general] on a 2 x 2 image allocates 58 (complex) or 22
    (real) parameters and lays out three blocks; no per-block count [k]
    consumes that vector exactly. *)
Theorem mps_general_not_exactly_consumed : forall (cs : bool) (k : nat),
  let r := __init__ (list ParameterVectorElement)
             (PyTuple [PyInt 2; PyInt 2]) new in
  let self := snd r in
  let pv := general_param_vector 4 cs in
  fst r = Ok tt
  /\ num_qubits self = Some 4
  /\ List.length pv = (if cs then 58 else 22)%nat
  /\ fst (mps_general _ (uniform_parameterization k) cs self)
     = Ok (mkCircuit 4 (layout _ (uniform_parameterization k) cs pv 3))
  /\ ~ exactly_consumed k pv 3.
Proof.
  intros cs k r self pv.
  split; [ reflexivity | split; [ reflexivity | split; [ | split ] ] ].
  - unfold pv. rewrite general_param_vector_length. destruct cs; reflexivity.
  - unfold mps_general, bind at 1. unfold getattr at 1. simpl num_qubits.
    cbv iota beta.
    rewrite (mps_backbone_run _ _ _ cs self 4 (new_circuit 4))
      by reflexivity.
    reflexivity.
  - intros H. apply exactly_consumed_iff in H.
    unfold pv in H. rewrite general_param_vector_length in H.
    destruct cs; simpl in H; lia.
Qed.

(** *** Further properties of the MPS builder *)

(** On a constructed object every block that [mps_backbone] composes
    sits on two adjacent qubits of the circuit: there are
    [num_qubits - 1] of them and none reaches past the last qubit. *)
Theorem mps_blocks_within_circuit :
  forall (Block : Type) (gs : gate_structure_t Block)
         (pv : list ParameterVectorElement) (cs : bool) dims (self : MPS Block),
  instance Block dims self ->
  exists c,
    mps_backbone Block gs pv cs self = (Ok c, set_circuit Block c self)
    /\ Qiskit.num_qubits c = prod_of dims
    /\ Z.of_nat (List.length (data c)) = prod_of dims - 1
    /\ Forall (fun op =>
         match op with
         | Compose _ qubits =>
             exists i, qubits = [i; i + 1]
                       /\ 0 <= i /\ i + 1 < Qiskit.num_qubits c
         end) (data c).
Proof.
  intros Block gs pv cs dims self Hinst.
  destruct (mps_instance_inv Block dims self Hinst)
    as [items [-> [Hall [Hpos ->]]]].
  eexists. split; [ | split; [ | split ] ].
  - apply (mps_backbone_run Block gs pv cs _ (math_prod items)
             (new_circuit (math_prod items))); reflexivity.
  - reflexivity.
  - simpl. rewrite layout_length. lia.
  - simpl. unfold layout. apply Forall_forall. intros op Hin.
    apply in_map_iff in Hin. destruct Hin as [i [<- Hi]].
    apply in_seq in Hi. exists (Z.of_nat i). split; [ reflexivity | lia ].
Qed.

Lemma mps_blocks_within_circuit_witness :
  exists c,
    mps_backbone _ (uniform_parameterization 2) (simple_param_vector 4) true
      (mkMPS (Some (PyTuple [PyInt 2; PyInt 2])) (Some 4)
         (Some (new_circuit 4)) (Some [0; 1; 2; 3]))
    = (Ok c, set_circuit _ c
               (mkMPS (Some (PyTuple [PyInt 2; PyInt 2])) (Some 4)
                  (Some (new_circuit 4)) (Some [0; 1; 2; 3])))
    /\ Qiskit.num_qubits c = prod_of (PyTuple [PyInt 2; PyInt 2])
    /\ Z.of_nat (List.length (data c)) = prod_of (PyTuple [PyInt 2; PyInt 2]) - 1
    /\ Forall (fun op =>
         match op with
         | Compose _ qubits =>
             exists i, qubits = [i; i + 1]
                       /\ 0 <= i /\ i + 1 < Qiskit.num_qubits c
         end) (data c).
Proof.
  apply (mps_blocks_within_circuit _ (uniform_parameterization 2)
           (simple_param_vector 4) true (PyTuple [PyInt 2; PyInt 2])).
  reflexivity.
Defined.

Lemma uniform_params_before : forall k cs (pv : list ParameterVectorElement) i,
  params_before _ (uniform_parameterization k) cs pv i = skipn (i * k) pv.
Proof.
  intros k cs pv i. induction i as [ | i IH ].
  - reflexivity.
  - simpl params_before. rewrite IH. simpl snd.
    rewrite skipn_skipn. f_equal; lia.
Qed.

Lemma theta_pair : forall len i,
  (2 * i + 2 <= len)%nat ->
  firstn 2 (skipn (i * 2) (map (mkParameter "theta") (seq 0 len)))
  = [mkParameter "theta" (2 * i); mkParameter "theta" (2 * i + 1)].
Proof.
  intros len i Hi.
  rewrite skipn_map, firstn_map, skipn_seq.
  replace (len - i * 2)%nat with (S (S (len - i * 2 - 2))) by lia.
  simpl firstn. simpl map.
  replace (i * 2)%nat with (2 * i)%nat by lia.
  replace (S (2 * i)) with (2 * i + 1)%nat by lia.
  reflexivity.
Qed.

Lemma uniform_blocks_concat : forall k (pv : list ParameterVectorElement) count,
  List.concat (map (fun i => firstn k (skipn (i * k) pv)) (seq 0 count))
    ++ skipn (count * k) pv
  = pv.
Proof.
  intros k pv count. induction count as [ | count IH ].
  - reflexivity.
  - rewrite seq_S, map_app, concat_app. simpl.
    rewrite app_nil_r, <- app_assoc.
    rewrite <- skipn_skipn, firstn_skipn. exact IH.
Qed.

(** [mps_simple] on the object that [MPS(img_dims)] hands back, with
    two parameters per block: block [i] sits on the qubits (i, i + 1)
    and binds theta[2i] and theta[2i + 1], the circuit that is stored
    and returned holds exactly these blocks, and the loop ends with no
    parameter left. *)
Theorem mps_simple_blocks :
  forall (cs : bool) (dims : pyval) (self : MPS (list ParameterVectorElement)),
  instance _ dims self ->
  let n := prod_of dims in
  let blocks :=
    map (fun i => Compose [mkParameter "theta" (2 * i);
                           mkParameter "theta" (2 * i + 1)]
                          [Z.of_nat i; Z.of_nat i + 1])
        (seq 0 (Z.to_nat (n - 1))) in
  let r := mps_simple _ (uniform_parameterization 2) cs self in
  fst r = Ok (mkCircuit n blocks)
  /\ _circuit (snd r) = Some (mkCircuit n blocks)
  /\ snd r = set_circuit _ (mkCircuit n blocks) self
  /\ fst (backbone_loop _ (uniform_parameterization 2) cs (py_range 0 (n - 1))
            (simple_param_vector n) self) = Ok [].
Proof.
  intros cs dims self Hinst n blocks r.
  destruct (mps_instance_inv _ dims self Hinst)
    as [items [Hdims [Hall [Hpos Hself]]]].
  assert (Hn : n = math_prod items) by (unfold n; rewrite Hdims; reflexivity).
  assert (Hnq : num_qubits self = Some n) by (rewrite Hself, Hn; reflexivity).
  assert (Hc : _circuit self = Some (new_circuit n))
    by (rewrite Hself, Hn; reflexivity).
  assert (Hlay : layout _ (uniform_parameterization 2) cs
                   (simple_param_vector n) (Z.to_nat (n - 1)) = blocks).
  { unfold layout, blocks. apply map_ext_in. intros i Hi.
    apply in_seq in Hi. f_equal.
    unfold block_at. rewrite uniform_params_before. simpl fst.
    unfold simple_param_vector, ParameterVector.
    apply theta_pair. lia. }
  assert (Hrun : r = (Ok (mkCircuit n blocks),
                      set_circuit _ (mkCircuit n blocks) self)).
  { unfold r, mps_simple, bind at 1. unfold getattr at 1. rewrite Hnq.
    cbv zeta.
    rewrite (mps_backbone_run _ _ _ cs self n (new_circuit n) Hnq Hc).
    rewrite Hlay. reflexivity. }
  rewrite Hrun. simpl.
  split; [ reflexivity | split; [ reflexivity | split; [ reflexivity | ] ] ].
  rewrite (backbone_loop_on _ _ _ cs self n (new_circuit n) Hc). simpl.
  f_equal. rewrite uniform_params_before. apply skipn_all2.
  unfold simple_param_vector. rewrite ParameterVector_length. lia.
Qed.

Lemma mps_simple_blocks_witness :
  let self := snd (__init__ (list ParameterVectorElement)
                     (PyTuple [PyInt 1; PyInt 3]) new) in
  let c := mkCircuit 3
             [Compose [mkParameter "theta" 0; mkParameter "theta" 1] [0; 1];
              Compose [mkParameter "theta" 2; mkParameter "theta" 3] [1; 2]] in
  fst (mps_simple _ (uniform_parameterization 2) false self) = Ok c
  /\ _circuit (snd (mps_simple _ (uniform_parameterization 2) false self))
     = Some c.
Proof.
  intros self c.
  destruct (mps_simple_blocks false (PyTuple [PyInt 1; PyInt 3]) self eq_refl)
    as [H1 [H2 _]].
  split; [ exact H1 | exact H2 ].
Defined.

(** [mps_general] on the object that [MPS(img_dims)] hands back, with
    fifteen (complex) or six (real) parameters per block: the circuit
    that is stored and returned holds [n - 1] blocks, every block binds
    its full share, the blocks bind the allocated parameters in order,
    and the loop ends with thirteen (complex) or four (real) allocated
    parameters that no block has bound. *)
Theorem mps_general_surplus :
  forall (cs : bool) (dims : pyval) (self : MPS (list ParameterVectorElement)),
  instance _ dims self ->
  let n := prod_of dims in
  let k := (if cs then 15 else 6)%nat in
  let gs := uniform_parameterization k in
  let allocated := general_param_vector n cs in
  exists c leftover,
    mps_general _ gs cs self = (Ok c, set_circuit _ c self)
    /\ _circuit (snd (mps_general _ gs cs self)) = Some c
    /\ backbone_loop _ gs cs (py_range 0 (n - 1)) allocated self
       = (Ok leftover, set_circuit _ c self)
    /\ Qiskit.num_qubits c = n
    /\ Z.of_nat (List.length (data c)) = n - 1
    /\ Forall (fun op => match op with
                         | Compose block _ => List.length block = k
                         end) (data c)
    /\ List.concat (map (fun op => match op with Compose block _ => block end)
                   (data c)) ++ leftover = allocated
    /\ List.length leftover = (if cs then 13 else 4)%nat.
Proof.
  intros cs dims self Hinst n k gs allocated.
  destruct (mps_instance_inv _ dims self Hinst)
    as [items [Hdims [Hall [Hpos Hself]]]].
  assert (Hn : n = math_prod items) by (unfold n; rewrite Hdims; reflexivity).
  assert (Hnq : num_qubits self = Some n) by (rewrite Hself, Hn; reflexivity).
  assert (Hc : _circuit self = Some (new_circuit n))
    by (rewrite Hself, Hn; reflexivity).
  assert (Hge : 1 <= n) by lia.
  set (blocks := layout _ gs cs allocated (Z.to_nat (n - 1))).
  exists (mkCircuit n blocks).
  exists (params_before _ gs cs allocated (Z.to_nat (n - 1))).
  assert (Hrun : mps_general _ gs cs self
                 = (Ok (mkCircuit n blocks),
                    set_circuit _ (mkCircuit n blocks) self)).
  { unfold mps_general, bind at 1. unfold getattr at 1. rewrite Hnq.
    cbv zeta.
    rewrite (mps_backbone_run _ _ _ cs self n (new_circuit n) Hnq Hc).
    reflexivity. }
  split; [ exact Hrun | ].
  split; [ rewrite Hrun; reflexivity | ].
  split; [ rewrite (backbone_loop_on _ _ _ cs self n (new_circuit n) Hc);
           reflexivity | ].
  split; [ reflexivity | ].
  split; [ simpl; unfold blocks; rewrite layout_length; lia | ].
  split; [ | split ].
  - simpl. unfold blocks, layout. apply Forall_forall. intros op Hin.
    apply in_map_iff in Hin. destruct Hin as [i [<- Hi]].
    apply in_seq in Hi.
    unfold gs, allocated. rewrite uniform_block, general_param_vector_length.
    unfold k. destruct cs; lia.
  - cbn [data]. unfold blocks, layout, gs. rewrite map_map. cbv beta iota.
    rewrite uniform_params_before.
    rewrite (map_ext _ (fun i => firstn k (skipn (i * k) allocated))).
    + apply uniform_blocks_concat.
    + intros i. unfold block_at. rewrite uniform_params_before. reflexivity.
  - unfold gs, allocated, k. apply mps_general_leftover. exact Hge.
Qed.

(** A 2 x 2 image with the real parameterization: 22 parameters are
    allocated, three blocks bind six each, four are left. *)
Lemma mps_general_surplus_witness :
  let self := snd (__init__ (list ParameterVectorElement)
                     (PyTuple [PyInt 2; PyInt 2]) new) in
  let gs := uniform_parameterization 6 in
  exists c leftover,
    mps_general _ gs false self = (Ok c, set_circuit _ c self)
    /\ _circuit (snd (mps_general _ gs false self)) = Some c
    /\ backbone_loop _ gs false [0; 1; 2] (ParameterVector "theta" 22) self
       = (Ok leftover, set_circuit _ c self)
    /\ Qiskit.num_qubits c = 4
    /\ Z.of_nat (List.length (data c)) = 3
    /\ Forall (fun op => match op with
                         | Compose block _ => List.length block = 6%nat
                         end) (data c)
    /\ List.concat (map (fun op => match op with Compose block _ => block end)
                   (data c)) ++ leftover = ParameterVector "theta" 22
    /\ List.length leftover = 4%nat.
Proof.
  intros self gs.
  exact (mps_general_surplus false (PyTuple [PyInt 2; PyInt 2]) self eq_refl).
Defined.

End MPSProofs.


(** ** The NEQR encoder *)

Module NEQRProofs.

Import Qiskit NEQR.

(** The constructor, check by check. *)
Lemma init_cases : forall check dims vals m,
  __init__ check dims vals m new =
    match check dims vals with
    | Some e => (Raise e, new)
    | None =>
        if all_equal dims
        then
          if (m <? 0) || (m >? 255)
          then (Raise (ValueError
                  "Maximum color intensity cannot be less than 0 or greater than 255."),
                embedded dims vals)
          else
            if prod dims <? 0
            then (Raise (ValueError "cannot convert float NaN to integer"),
                  embedded dims vals)
            else (Ok tt, constructed dims vals m)
        else (Raise (ValueError
                "NEQR supports square images only. Input img_dims must have same dimensions."),
              embedded dims vals)
    end.
Proof.
  intros check dims vals m.
  unfold __init__, ImageEmbedding__init__, validate_square_images.
  unfold bind at 1.
  destruct (check dims vals) as [e | ]; [ reflexivity | ].
  unfold bind, modify, getattr, raise, ret, lift, ceil_sqrt, ceil_log2. simpl.
  destruct (all_equal dims); [ | reflexivity ].
  destruct ((m <? 0) || (m >? 255)); [ reflexivity | ].
  simpl. destruct (prod dims <? 0); reflexivity.
Qed.

Lemma prod_pair : forall a b, prod [a; b] = a * b.
Proof. intros a b. unfold prod. simpl. destruct a; reflexivity. Qed.

Lemma all_equal_pair : forall a b, all_equal [a; b] = (a =? b).
Proof. intros a b. simpl. apply andb_true_r. Qed.

Lemma sqrt_up_is_ceil : forall x, 0 <= x -> is_ceil_sqrt x (Z.sqrt_up x).
Proof.
  intros x Hx. unfold is_ceil_sqrt. split; [ | split ].
  - apply Z.sqrt_up_nonneg.
  - destruct (Z.eq_dec x 0) as [-> | Hne].
    + reflexivity.
    + pose proof (Z.sqrt_up_spec x ltac:(lia)) as [_ H].
      exact H.
  - intros j Hj Hle.
    rewrite <- (Z.sqrt_up_square j Hj).
    apply Z.sqrt_up_le_mono. exact Hle.
Qed.

Lemma log2_up_is_ceil : forall y, 1 <= y -> is_ceil_log2 y (Z.log2_up y).
Proof.
  intros y Hy. unfold is_ceil_log2. split; [ | split ].
  - apply Z.log2_up_nonneg.
  - destruct (Z.eq_dec y 1) as [-> | Hne].
    + reflexivity.
    + pose proof (Z.log2_up_spec y ltac:(lia)) as [_ H]. exact H.
  - intros j Hj Hle.
    rewrite <- (Z.log2_up_pow2 j Hj).
    apply Z.log2_up_le_mono. exact Hle.
Qed.

(** What a successful construction looks like. *)
Lemma instance_inv : forall check dims vals m self,
  instance check dims vals m self ->
  check dims vals = None
  /\ all_equal dims = true
  /\ 0 <= m <= 255
  /\ 0 <= prod dims
  /\ self = constructed dims vals m.
Proof.
  intros check dims vals m self H. unfold instance in H.
  rewrite init_cases in H.
  destruct (check dims vals); [ discriminate | ].
  destruct (all_equal dims); [ | discriminate ].
  destruct ((m <? 0) || (m >? 255)) eqn:Hm; [ discriminate | ].
  destruct (prod dims <? 0) eqn:Hp; [ discriminate | ].
  apply orb_false_iff in Hm. destruct Hm as [Hm1 Hm2].
  apply Z.ltb_ge in Hm1. apply Z.ltb_ge in Hp.
  assert (m <= 255) by (destruct (Z.gtb_spec m 255); [ discriminate | lia ]).
  injection H as <-. repeat split; trivial.
Qed.

Lemma prod_fold_right : forall dims, prod dims = fold_right Z.mul 1 dims.
Proof.
  intros dims. unfold prod.
  assert (H : forall l a, fold_left Z.mul l a = a * fold_right Z.mul 1 l).
  { induction l as [ | x l IH ]; intros a; simpl.
    - ring.
    - rewrite IH. ring. }
  rewrite H. ring.
Qed.

(** C5: the circuit of an NEQR instance starts empty and has
    [ceil(sqrt(prod(img_dims))) + ceil(log2(m + 1))] qubits:
    [feature_dim] position qubits, the least number whose square
    reaches the product of the dimensions, and [color_qubits] colour
    qubits, the least number of bits that count up to [m]. *)
Theorem neqr_circuit_width : forall check dims vals m self,
  instance check dims vals m self ->
  0 <= m <= 255 ->
  let pixels := fold_right Z.mul 1 dims in
  exists fd cq c,
    feature_dim self = Some fd
    /\ color_qubits self = Some cq
    /\ _circuit self = Some c
    /\ is_ceil_sqrt pixels fd
    /\ is_ceil_log2 (m + 1) cq
    /\ fd = Z.sqrt_up pixels
    /\ cq = Z.log2_up (m + 1)
    /\ Qiskit.num_qubits c = fd + cq
    /\ data c = [].
Proof.
  intros check dims vals m self Hinst Hm pixels.
  apply instance_inv in Hinst.
  destruct Hinst as [_ [_ [_ [Hp ->]]]].
  unfold pixels. rewrite <- prod_fold_right.
  exists (Z.sqrt_up (prod dims)), (Z.log2_up (m + 1)),
         (new_circuit (Z.sqrt_up (prod dims) + Z.log2_up (m + 1))).
  split; [ reflexivity | ].
  split; [ reflexivity | ].
  split; [ reflexivity | ].
  split; [ apply sqrt_up_is_ceil; exact Hp | ].
  split; [ apply log2_up_is_ceil; lia | ].
  repeat split.
Qed.

(** A 3 x 3 image with colours up to 5: three position qubits (3 * 3
    reaches 9), three colour qubits (8 values reach 6), six in all. *)
Lemma neqr_circuit_width_witness :
  let self :=
    snd (__init__ (fun _ _ => None) [3; 3] [0; 1; 2; 3; 4; 5; 4; 3; 2] 5 new) in
  feature_dim self = Some 3
  /\ color_qubits self = Some 3
  /\ exists c, _circuit self = Some c
       /\ Qiskit.num_qubits c = 6
       /\ data c = [].
Proof.
  intros self.
  destruct (neqr_circuit_width (fun _ _ => None) [3; 3]
              [0; 1; 2; 3; 4; 5; 4; 3; 2] 5 self)
    as [fd [cq [c [Hfd [Hcq [Hc [_ [_ [Efd [Ecq [Hw Hd]]]]]]]]]]].
  - reflexivity.
  - lia.
  - simpl in Efd, Ecq. subst fd cq.
    split; [ exact Hfd | split; [ exact Hcq | ] ].
    exists c. split; [ exact Hc | split; [ exact Hw | exact Hd ] ].
Defined.

(** C6: once the inherited constructor has accepted the arguments, a
    non-square [img_dims] raises a [ValueError] before any circuit
    exists; a [max_color_intensity] below 0 or above 255 raises a
    [ValueError] before any circuit exists, with the quoted message when
    the image is square (the square check comes first); square
    dimensions with a colour range in [0, 255] raise nothing. *)
Theorem neqr_init_errors : forall check a b vals m,
  check [a; b] vals = None ->
  let r := __init__ check [a; b] vals m new in
  (a <> b ->
     (exists msg, fst r = Raise (ValueError msg)) /\ _circuit (snd r) = None)
  /\ (m < 0 \/ 255 < m ->
     (exists msg, fst r = Raise (ValueError msg))
     /\ _circuit (snd r) = None
     /\ (a = b ->
         fst r = Raise (ValueError
           "Maximum color intensity cannot be less than 0 or greater than 255.")))
  /\ (a = b -> 0 <= m <= 255 -> fst r = Ok tt).
Proof.
  intros check a b vals m Hcheck r. unfold r.
  rewrite init_cases, Hcheck, all_equal_pair, prod_pair.
  split; [ | split ].
  - intros Hab. apply Z.eqb_neq in Hab. rewrite Hab. simpl.
    split; [ eexists; reflexivity | reflexivity ].
  - intros Hm.
    assert (Hrange : (m <? 0) || (m >? 255) = true).
    { apply orb_true_iff. destruct Hm as [Hm | Hm].
      - left. apply Z.ltb_lt. exact Hm.
      - right. apply Z.gtb_lt. exact Hm. }
    rewrite Hrange.
    destruct (a =? b) eqn:Hab; simpl.
    + split; [ eexists; reflexivity | split; [ reflexivity | ] ].
      intros _. reflexivity.
    + split; [ eexists; reflexivity | split; [ reflexivity | ] ].
      intros Heq. apply Z.eqb_neq in Hab. contradiction.
  - intros Heq Hm. subst b. rewrite Z.eqb_refl.
    assert (Hrange : (m <? 0) || (m >? 255) = false).
    { apply orb_false_iff. split.
      - apply Z.ltb_ge. lia.
      - destruct (Z.gtb_spec m 255); [ lia | reflexivity ]. }
    rewrite Hrange.
    assert (Hp : (a * a <? 0) = false) by (apply Z.ltb_ge; nia).
    rewrite Hp. reflexivity.
Qed.

(** A 2 x 3 image, a colour range of 300, and a valid construction. *)
Lemma neqr_init_errors_witness :
  let check := fun (_ _ : list Z) => @None exn in
  ((exists msg, fst (__init__ check [2; 3] [1; 2; 3; 4; 5; 6] 255 new)
                = Raise (ValueError msg))
   /\ _circuit (snd (__init__ check [2; 3] [1; 2; 3; 4; 5; 6] 255 new)) = None)
  /\ fst (__init__ check [2; 2] [1; 2; 3; 4] 300 new)
     = Raise (ValueError
         "Maximum color intensity cannot be less than 0 or greater than 255.")
  /\ fst (__init__ check [2; 2] [1; 2; 3; 4] 255 new) = Ok tt.
Proof.
  intros check. split; [ | split ].
  - apply (neqr_init_errors check 2 3 [1; 2; 3; 4; 5; 6] 255 eq_refl). lia.
  - apply (neqr_init_errors check 2 2 [1; 2; 3; 4] 300 eq_refl).
    + right. lia.
    + reflexivity.
  - apply (neqr_init_errors check 2 2 [1; 2; 3; 4] 255 eq_refl).
    + reflexivity.
    + lia.
Defined.

(** *** Appending to the stored circuit *)

Lemma set_circuit_id : forall self c,
  _circuit self = Some c -> set_circuit c self = self.
Proof.
  intros [d v f m q circ r] c H. simpl in H. subst circ. reflexivity.
Qed.

Lemma append_nil : forall (c : QuantumCircuit Op), append c [] = c.
Proof.
  intros [n d]. unfold append. simpl. rewrite app_nil_r. reflexivity.
Qed.

Lemma append_ops_assoc : forall (c : QuantumCircuit Op) ops1 ops2,
  append (append c ops1) ops2 = append c (ops1 ++ ops2).
Proof.
  intros c ops1 ops2. unfold append. simpl. rewrite app_assoc. reflexivity.
Qed.

(** A gate call with indices that name qubits. *)
Lemma apply_op_taken : forall op c self,
  accepts (Qiskit.num_qubits c) op = true ->
  apply_op op (set_circuit c self)
  = (Ok tt, set_circuit (append c [op]) self).
Proof.
  intros op c self Hacc.
  unfold apply_op, bind, circuit, getattr. simpl. rewrite Hacc. reflexivity.
Qed.

(** A gate call with an index that names no qubit. *)
Lemma apply_op_refused : forall op c self,
  accepts (Qiskit.num_qubits c) op = false ->
  apply_op op (set_circuit c self)
  = (Raise (CircuitError "Index out of range."), set_circuit c self).
Proof.
  intros op c self Hacc.
  unfold apply_op, bind, circuit, getattr. simpl. rewrite Hacc. reflexivity.
Qed.

Lemma append_ops_on : forall ops c self,
  forallb (accepts (Qiskit.num_qubits c)) ops = true ->
  append_ops ops (set_circuit c self)
  = (Ok tt, set_circuit (append c ops) self).
Proof.
  induction ops as [ | op ops IH ]; intros c self Hall.
  - unfold append_ops. simpl. unfold ret. rewrite append_nil. reflexivity.
  - simpl in Hall. apply andb_true_iff in Hall. destruct Hall as [Hop Hops].
    unfold append_ops. simpl. unfold bind.
    rewrite (apply_op_taken op c self Hop).
    fold (append_ops ops). rewrite IH by exact Hops.
    rewrite append_ops_assoc. reflexivity.
Qed.

(** Whatever the gates, a sequence of calls ends with all of them taken
    or with [CircuitError]. *)
Lemma append_ops_outcome : forall ops c self,
  taken_or_refused self (Qiskit.num_qubits c)
    (append_ops ops (set_circuit c self)).
Proof.
  induction ops as [ | op ops IH ]; intros c self.
  - left. exists c. split; reflexivity.
  - unfold append_ops. simpl. unfold bind.
    destruct (accepts (Qiskit.num_qubits c) op) eqn:Hacc.
    + rewrite (apply_op_taken op c self Hacc).
      fold (append_ops ops). apply (IH (append c [op]) self).
    + rewrite (apply_op_refused op c self Hacc).
      right. eexists. eexists. reflexivity.
Qed.

(** A loop whose body only appends operations appends them in the
    order of the iteration; the circuit keeps its width. *)
Lemma for_each_appends :
  forall (A : Type) (f : A -> list Op) (body : A -> M NEQR unit) self
         (width : Z) items,
  (forall x, In x items -> forall c,
     Qiskit.num_qubits c = width ->
     body x (set_circuit c self) = (Ok tt, set_circuit (append c (f x)) self)) ->
  forall c,
    Qiskit.num_qubits c = width ->
    for_each items body (set_circuit c self)
    = (Ok tt, set_circuit (append c (flat_map f items)) self).
Proof.
  intros A f body self width items.
  induction items as [ | x rest IH ]; intros Hbody c Hw.
  - simpl. unfold ret. rewrite append_nil. reflexivity.
  - simpl. unfold bind. rewrite (Hbody x (or_introl eq_refl) c Hw).
    rewrite IH; [ | intros y Hy; apply Hbody; right; exact Hy | exact Hw ].
    rewrite append_ops_assoc. reflexivity.
Qed.

(** A loop that meets an item its body refuses stops there: the items
    before it have been appended, and the error of the refusal is
    raised. *)
Lemma for_each_first_refusal :
  forall (A : Type) (f : A -> list Op) (pass : A -> bool)
         (body : A -> M NEQR unit) self (width : Z) (e : exn) items,
  (forall x c, Qiskit.num_qubits c = width -> pass x = true ->
     body x (set_circuit c self) = (Ok tt, set_circuit (append c (f x)) self)) ->
  (forall x c, Qiskit.num_qubits c = width -> pass x = false ->
     body x (set_circuit c self) = (Raise e, set_circuit c self)) ->
  existsb (fun x => negb (pass x)) items = true ->
  forall c,
    Qiskit.num_qubits c = width ->
    for_each items body (set_circuit c self)
    = (Raise e,
       set_circuit (append c (flat_map f (take_while pass items))) self).
Proof.
  intros A f pass body self width e items Hpass Hfail.
  induction items as [ | x rest IH ]; intros Hex c Hw.
  - discriminate Hex.
  - simpl. unfold bind. destruct (pass x) eqn:Hx.
    + rewrite (Hpass x c Hw Hx). simpl in Hex. rewrite Hx in Hex.
      simpl in Hex. rewrite (IH Hex (append c (f x)) Hw).
      rewrite append_ops_assoc. reflexivity.
    + rewrite (Hfail x c Hw Hx). simpl. rewrite append_nil. reflexivity.
Qed.

Lemma in_py_range : forall lo hi x,
  In x (py_range lo hi) <-> lo <= x < hi.
Proof.
  intros lo hi x. unfold py_range. rewrite in_map_iff. split.
  - intros [i [<- Hi]]. apply in_seq in Hi. lia.
  - intros Hx. exists (Z.to_nat (x - lo)). split; [ lia | ].
    apply in_seq. lia.
Qed.

Lemma getitem_in_range : forall (vals : list Z) p,
  0 <= p < Z.of_nat (List.length vals) ->
  py_getitem "list" vals p = Ok (nth (Z.to_nat p) vals 0).
Proof.
  intros vals p Hp. unfold py_getitem.
  destruct (Z.ltb_spec p 0); [ lia | ].
  destruct (Z.ltb_spec p 0); [ lia | ].
  destruct (Z.leb_spec (Z.of_nat (List.length vals)) p); [ lia | ].
  simpl.
  destruct (nth_error vals (Z.to_nat p)) as [v | ] eqn:E.
  - rewrite (nth_error_nth _ _ _ E). reflexivity.
  - apply nth_error_None in E. lia.
Qed.

Lemma flat_map_singleton : forall (A B : Type) (g : A -> B) items,
  flat_map (fun x => [g x]) items = map g items.
Proof.
  intros A B g items. induction items as [ | x rest IH ]; simpl.
  - reflexivity.
  - rewrite IH. reflexivity.
Qed.

Lemma flat_map_ones : forall fd (pairs : list (Z * ascii)),
  flat_map (fun p => if Ascii.eqb (snd p) "1"
                     then [MCT (py_range 0 fd) (fd + fst p)] else []) pairs
  = color_gates fd (map fst (filter (fun p => Ascii.eqb (snd p) "1") pairs)).
Proof.
  intros fd pairs. unfold color_gates.
  induction pairs as [ | [i ch] rest IH ]; simpl.
  - reflexivity.
  - destruct (Ascii.eqb ch "1"); simpl; rewrite IH; reflexivity.
Qed.

(** *** The colour gates and the width of the circuit *)

Lemma valid_index_iff : forall n q,
  valid_index n q = true <-> - n <= q < n.
Proof.
  intros n q. unfold valid_index. rewrite andb_true_iff.
  rewrite Z.leb_le, Z.ltb_lt. reflexivity.
Qed.

Lemma accepts_mct : forall width fd target,
  0 <= fd <= width ->
  accepts width (MCT (py_range 0 fd) target) = valid_index width target.
Proof.
  intros width fd target Hfd. unfold accepts. simpl.
  rewrite forallb_app. simpl. rewrite andb_true_r.
  assert (Hc : forallb (valid_index width) (py_range 0 fd) = true).
  { apply forallb_forall. intros q Hq. apply in_py_range in Hq.
    apply valid_index_iff. lia. }
  rewrite Hc. reflexivity.
Qed.

Lemma in_enumerate : forall s i ch,
  In (i, ch) (enumerate s) -> 0 <= i < Z.of_nat (String.length s).
Proof.
  intros s i ch H. unfold enumerate in H.
  apply in_combine_l in H. apply in_py_range in H. exact H.
Qed.

Lemma in_one_positions : forall s i,
  In i (one_positions s) -> 0 <= i < Z.of_nat (String.length s).
Proof.
  intros s i H. unfold one_positions in H.
  apply in_map_iff in H. destruct H as [[j ch] [Hj Hin]]. simpl in Hj. subst j.
  apply filter_In in Hin. destruct Hin as [Hin _].
  apply (in_enumerate s i ch Hin).
Qed.

(** The body of the loop in [pixel_value]. *)
Lemma color_call_taken : forall self fd (pair : Z * ascii) c,
  feature_dim self = Some fd ->
  0 <= fd <= Qiskit.num_qubits c ->
  negb (Ascii.eqb (snd pair) "1")
    || valid_index (Qiskit.num_qubits c) (fd + fst pair) = true ->
  (let '(index, color) := pair in
   if Ascii.eqb color "1"
   then bind (getattr feature_dim "feature_dim")
          (fun fd' => append_ops [MCT (py_range 0 fd) (fd' + index)])
   else ret tt) (set_circuit c self)
  = (Ok tt,
     set_circuit
       (append c (if Ascii.eqb (snd pair) "1"
                  then [MCT (py_range 0 fd) (fd + fst pair)] else []))
       self).
Proof.
  intros self fd [index color] c Hfd Hrange Hpass. simpl in *.
  destruct (Ascii.eqb color "1"); simpl in Hpass.
  - unfold bind, getattr. simpl feature_dim. rewrite Hfd.
    apply append_ops_on. simpl. rewrite andb_true_r.
    rewrite (accepts_mct _ fd _ Hrange). exact Hpass.
  - unfold ret. rewrite append_nil. reflexivity.
Qed.

Lemma color_call_refused : forall self fd (pair : Z * ascii) c,
  feature_dim self = Some fd ->
  0 <= fd <= Qiskit.num_qubits c ->
  negb (Ascii.eqb (snd pair) "1")
    || valid_index (Qiskit.num_qubits c) (fd + fst pair) = false ->
  (let '(index, color) := pair in
   if Ascii.eqb color "1"
   then bind (getattr feature_dim "feature_dim")
          (fun fd' => append_ops [MCT (py_range 0 fd) (fd' + index)])
   else ret tt) (set_circuit c self)
  = (Raise (CircuitError "Index out of range."), set_circuit c self).
Proof.
  intros self fd [index color] c Hfd Hrange Hpass. simpl in *.
  destruct (Ascii.eqb color "1"); simpl in Hpass; [ | discriminate ].
  unfold bind, getattr. simpl feature_dim. rewrite Hfd.
  unfold append_ops. simpl. unfold bind.
  rewrite apply_op_refused; [ reflexivity | ].
  rewrite (accepts_mct _ fd _ Hrange). exact Hpass.
Qed.

(** [pixel_value] when every gate lands on a qubit: one gate per
    character 1 of the colour text. *)
Lemma pixel_value_on : forall self vals fd p v,
  pixel_vals self = Some vals ->
  feature_dim self = Some fd ->
  py_getitem "list" vals p = Ok v ->
  forall c,
    0 <= fd <= Qiskit.num_qubits c ->
    (forall i, In i (one_positions (format_0_right_b 8 v)) ->
       fd + i < Qiskit.num_qubits c) ->
    pixel_value p (set_circuit c self)
    = (Ok tt,
       set_circuit
         (append c (color_gates fd (one_positions (format_0_right_b 8 v))))
         self).
Proof.
  intros self vals fd p v Hvals Hfd Hget c Hrange Hfit.
  unfold pixel_value.
  unfold bind at 1. unfold getattr at 1. simpl pixel_vals. rewrite Hvals.
  unfold bind at 1. unfold lift at 1. rewrite Hget.
  unfold bind at 1. unfold getattr at 1. simpl feature_dim. rewrite Hfd.
  unfold one_positions. rewrite <- flat_map_ones.
  apply (for_each_appends _ _ _ self (Qiskit.num_qubits c)); [ | reflexivity ].
  intros pair Hin c' Hw.
  apply (color_call_taken self fd pair c' Hfd); [ lia | ].
  destruct pair as [index color]. simpl.
  destruct (Ascii.eqb color "1") eqn:Hone; [ | reflexivity ]. simpl.
  apply valid_index_iff. rewrite Hw.
  assert (Hpos : In index (one_positions (format_0_right_b 8 v))).
  { unfold one_positions. apply in_map_iff. exists (index, color).
    split; [ reflexivity | ]. apply filter_In. split; [ exact Hin | exact Hone ]. }
  pose proof (Hfit index Hpos).
  pose proof (in_enumerate _ _ _ Hin). lia.
Qed.

Lemma take_while_ones : forall (fits : Z -> bool) (pairs : list (Z * ascii)),
  map fst (filter (fun p => Ascii.eqb (snd p) "1")
             (take_while (fun p => negb (Ascii.eqb (snd p) "1") || fits (fst p))
                pairs))
  = take_while fits (map fst (filter (fun p => Ascii.eqb (snd p) "1") pairs)).
Proof.
  intros fits pairs. induction pairs as [ | [i ch] rest IH ]; simpl.
  - reflexivity.
  - destruct (Ascii.eqb ch "1") eqn:Hone; simpl.
    + destruct (fits i); simpl.
      * rewrite Hone. simpl. rewrite IH. reflexivity.
      * reflexivity.
    + rewrite Hone. exact IH.
Qed.

Lemma existsb_ones : forall (fits : Z -> bool) (pairs : list (Z * ascii)),
  existsb (fun i => negb (fits i))
    (map fst (filter (fun p => Ascii.eqb (snd p) "1") pairs))
  = existsb (fun p => negb (negb (Ascii.eqb (snd p) "1") || fits (fst p)))
      pairs.
Proof.
  intros fits pairs. induction pairs as [ | [i ch] rest IH ]; simpl.
  - reflexivity.
  - destruct (Ascii.eqb ch "1"); simpl; rewrite IH; reflexivity.
Qed.

(** [pixel_value] when some gate would land past the circuit: the gates
    before the first such one are appended, then [CircuitError]. *)
Lemma pixel_value_refused : forall self vals fd p v,
  pixel_vals self = Some vals ->
  feature_dim self = Some fd ->
  py_getitem "list" vals p = Ok v ->
  forall c,
    0 <= fd <= Qiskit.num_qubits c ->
    existsb (fun i => negb (valid_index (Qiskit.num_qubits c) (fd + i)))
      (one_positions (format_0_right_b 8 v)) = true ->
    pixel_value p (set_circuit c self)
    = (Raise (CircuitError "Index out of range."),
       set_circuit
         (append c
            (color_gates fd
               (take_while
                  (fun i => valid_index (Qiskit.num_qubits c) (fd + i))
                  (one_positions (format_0_right_b 8 v)))))
         self).
Proof.
  intros self vals fd p v Hvals Hfd Hget c Hrange Hex.
  unfold pixel_value.
  unfold bind at 1. unfold getattr at 1. simpl pixel_vals. rewrite Hvals.
  unfold bind at 1. unfold lift at 1. rewrite Hget.
  unfold bind at 1. unfold getattr at 1. simpl feature_dim. rewrite Hfd.
  unfold one_positions in *.
  rewrite <- (take_while_ones
                (fun i => valid_index (Qiskit.num_qubits c) (fd + i))).
  rewrite <- flat_map_ones.
  rewrite existsb_ones in Hex.
  apply (for_each_first_refusal _ _
           (fun pair => negb (Ascii.eqb (snd pair) "1")
                        || valid_index (Qiskit.num_qubits c) (fd + fst pair))
           _ self (Qiskit.num_qubits c)).
  - intros pair c' Hw Hpass.
    apply (color_call_taken self fd pair c' Hfd); [ lia | ].
    rewrite Hw. exact Hpass.
  - intros pair c' Hw Hpass.
    apply (color_call_refused self fd pair c' Hfd); [ lia | ].
    rewrite Hw. exact Hpass.
  - exact Hex.
  - reflexivity.
Qed.

Lemma bytes_checked : forallb byte_checked (py_range 0 256) = true.
Proof. vm_compute. reflexivity. Qed.

(** For a byte, the characters 1 of the text stand where its bits are
    set, most significant first. *)
Lemma byte_one_positions : forall v,
  0 <= v <= 255 ->
  one_positions (format_0_right_b 8 v) = set_bits v.
Proof.
  intros v Hv.
  pose proof bytes_checked as H. rewrite forallb_forall in H.
  specialize (H v). unfold byte_checked in H.
  destruct (list_eq_dec Z.eq_dec (one_positions (format_0_right_b 8 v))
              (set_bits v)) as [E | E].
  - exact E.
  - assert (In v (py_range 0 256)) by (apply in_py_range; lia).
    specialize (H H0). discriminate.
Qed.

Lemma in_set_bits : forall v i,
  In i (set_bits v) <-> 0 <= i < 8 /\ Z.testbit v (7 - i) = true.
Proof.
  intros v i. unfold set_bits. rewrite filter_In, in_py_range. reflexivity.
Qed.




(** *** One pass of the pixel loop *)

Lemma bind_taken_or_refused :
  forall (first : M NEQR unit) (next : unit -> M NEQR unit) self width c,
  taken_or_refused self width (first (set_circuit c self)) ->
  (forall c', Qiskit.num_qubits c' = width ->
     taken_or_refused self width (next tt (set_circuit c' self))) ->
  taken_or_refused self width (bind first next (set_circuit c self)).
Proof.
  intros first next self width c Hfirst Hnext. unfold bind.
  destruct Hfirst as [[c' [E Hw]] | [msg [s E]]]; rewrite E.
  - apply Hnext. exact Hw.
  - right. exists msg, s. reflexivity.
Qed.

Lemma pixel_value_outcome : forall self vals fd p v,
  pixel_vals self = Some vals ->
  feature_dim self = Some fd ->
  py_getitem "list" vals p = Ok v ->
  forall c,
    0 <= fd <= Qiskit.num_qubits c ->
    taken_or_refused self (Qiskit.num_qubits c)
      (pixel_value p (set_circuit c self)).
Proof.
  intros self vals fd p v Hvals Hfd Hget c Hrange.
  destruct (existsb (fun i => negb (valid_index (Qiskit.num_qubits c) (fd + i)))
              (one_positions (format_0_right_b 8 v))) eqn:Hex.
  - right. eexists. eexists.
    apply (pixel_value_refused self vals fd p v Hvals Hfd Hget c Hrange Hex).
  - left. eexists. split.
    + apply (pixel_value_on self vals fd p v Hvals Hfd Hget c Hrange).
      intros i Hi.
      destruct (valid_index (Qiskit.num_qubits c) (fd + i)) eqn:Hvalid.
      * apply valid_index_iff in Hvalid. lia.
      * assert (Hcontra : existsb
                  (fun j => negb (valid_index (Qiskit.num_qubits c) (fd + j)))
                  (one_positions (format_0_right_b 8 v)) = true).
        { apply existsb_exists. exists i. split; [ exact Hi | ].
          rewrite Hvalid. reflexivity. }
        rewrite Hcontra in Hex. discriminate.
    + reflexivity.
Qed.

(** A pass for a pixel that has a value ends with its gates taken or
    with [CircuitError]. *)
Lemma pixel_pass_outcome : forall position_ops self vals fd pixel,
  pixel_vals self = Some vals ->
  feature_dim self = Some fd ->
  0 <= pixel < Z.of_nat (List.length vals) ->
  forall c,
    0 <= fd <= Qiskit.num_qubits c ->
    taken_or_refused self (Qiskit.num_qubits c)
      (bind (pixel_position position_ops (format_0_right_b 2 pixel))
         (fun _ => bind (pixel_value pixel)
            (fun _ => pixel_position position_ops (format_0_right_b 2 pixel)))
         (set_circuit c self)).
Proof.
  intros position_ops self vals fd pixel Hvals Hfd Hp c Hrange.
  apply bind_taken_or_refused.
  - apply append_ops_outcome.
  - intros c1 Hw1. apply bind_taken_or_refused.
    + rewrite <- Hw1.
      apply (pixel_value_outcome self vals fd pixel
               (nth (Z.to_nat pixel) vals 0) Hvals Hfd).
      * apply getitem_in_range. exact Hp.
      * lia.
    + intros c2 Hw2. rewrite <- Hw2. apply append_ops_outcome.
Qed.

(** A pass for a pixel one of whose set bits has no qubit always ends
    with [CircuitError]. *)
Lemma pixel_pass_refused : forall position_ops self vals fd pixel,
  pixel_vals self = Some vals ->
  feature_dim self = Some fd ->
  0 <= pixel < Z.of_nat (List.length vals) ->
  forall c,
    0 <= fd <= Qiskit.num_qubits c ->
    existsb (fun i => negb (valid_index (Qiskit.num_qubits c) (fd + i)))
      (one_positions (format_0_right_b 8 (nth (Z.to_nat pixel) vals 0))) = true ->
    exists msg s,
      bind (pixel_position position_ops (format_0_right_b 2 pixel))
        (fun _ => bind (pixel_value pixel)
           (fun _ => pixel_position position_ops (format_0_right_b 2 pixel)))
        (set_circuit c self)
      = (Raise (CircuitError msg), s).
Proof.
  intros position_ops self vals fd pixel Hvals Hfd Hp c Hrange Hex.
  unfold bind at 1. unfold pixel_position at 1.
  destruct (append_ops_outcome
              (position_ops (format_0_right_b 2 pixel)) c self)
    as [[c1 [E Hw1]] | [msg [s E]]]; rewrite E.
  - unfold bind at 1.
    rewrite (pixel_value_refused self vals fd pixel
               (nth (Z.to_nat pixel) vals 0) Hvals Hfd
               (getitem_in_range vals pixel Hp) c1).
    + eexists. eexists. reflexivity.
    + lia.
    + rewrite Hw1. exact Hex.
  - exists msg, s. reflexivity.
Qed.

(** A loop of such passes that contains one that is always refused is
    refused. *)
Lemma for_each_refused :
  forall (A : Type) (body : A -> M NEQR unit) self (width : Z) items,
  (forall x, In x items -> forall c,
     Qiskit.num_qubits c = width ->
     taken_or_refused self width (body x (set_circuit c self))) ->
  (exists x, In x items /\ forall c,
     Qiskit.num_qubits c = width ->
     exists msg s, body x (set_circuit c self) = (Raise (CircuitError msg), s)) ->
  forall c,
    Qiskit.num_qubits c = width ->
    exists msg s,
      for_each items body (set_circuit c self) = (Raise (CircuitError msg), s).
Proof.
  intros A body self width items.
  induction items as [ | x rest IH ]; intros Hall [bad [Hin Hbad]] c Hw.
  - destruct Hin.
  - simpl. unfold bind.
    destruct (Hall x (or_introl eq_refl) c Hw) as [[c' [E Hw']] | [msg [s E]]].
    + rewrite E. destruct Hin as [<- | Hin].
      * destruct (Hbad c Hw) as [msg [s Ebad]]. rewrite Ebad in E. discriminate.
      * apply IH; [ | exists bad; split; assumption | exact Hw' ].
        intros y Hy. apply Hall. right. exact Hy.
    + rewrite E. exists msg, s. reflexivity.
Qed.

Lemma hadamard_loop : forall self fd c,
  0 <= fd <= Qiskit.num_qubits c ->
  for_each (py_range 0 fd) (fun i => append_ops [H i]) (set_circuit c self)
  = (Ok tt, set_circuit (append c (map H (py_range 0 fd))) self).
Proof.
  intros self fd c Hrange.
  rewrite (for_each_appends Z (fun i => [H i]) _ self (Qiskit.num_qubits c));
    [ rewrite flat_map_singleton; reflexivity | | reflexivity ].
  intros i Hi c' Hw. apply in_py_range in Hi.
  apply append_ops_on. simpl. rewrite andb_true_r.
  unfold accepts. simpl. rewrite andb_true_r.
  apply valid_index_iff. lia.
Qed.

(** C2: a 2 x 2 image with colours up to 3 and the pixel values
    0, 2, 0, 0 is a valid instance with a circuit of four qubits, but
    [build_circuit] does not return on it: the gate for the set bit of
    pixel value 2 is aimed at qubit 2 + 6, and the call ends in
    [CircuitError], whatever the position embedding does. *)
Theorem build_circuit_refused_on_narrow_circuit :
  forall position_ops : string -> list Op,
  __init__ (fun _ _ => None) [2; 2] [0; 2; 0; 0] 3 new
  = (Ok tt, constructed [2; 2] [0; 2; 0; 0] 3)
  /\ _circuit (constructed [2; 2] [0; 2; 0; 0] 3) = Some (mkCircuit 4 [])
  /\ exists msg,
       fst (build_circuit position_ops (constructed [2; 2] [0; 2; 0; 0] 3))
       = Raise (CircuitError msg).
Proof.
  intros position_ops.
  split; [ reflexivity | split; [ reflexivity | ] ].
  set (self := constructed [2; 2] [0; 2; 0; 0] 3).
  assert (Hloop : exists msg s,
    for_each (py_range 0 (prod [2; 2]))
      (fun pixel =>
         bind (pixel_position position_ops (format_0_right_b 2 pixel))
           (fun _ => bind (pixel_value pixel)
              (fun _ => pixel_position position_ops (format_0_right_b 2 pixel))))
      (set_circuit (append (new_circuit 4) (map H (py_range 0 2))) self)
    = (Raise (CircuitError msg), s)).
  { apply (for_each_refused Z _ self 4); [ | | reflexivity ].
    - intros pixel Hin c Hw. rewrite <- Hw. apply in_py_range in Hin.
      apply (pixel_pass_outcome position_ops self [0; 2; 0; 0] 2 pixel
               eq_refl eq_refl).
      + change (prod [2; 2]) with 4 in Hin. simpl. lia.
      + lia.
    - exists 1.
      split; [ apply in_py_range; change (prod [2; 2]) with 4; lia | ].
      intros c Hw.
      apply (pixel_pass_refused position_ops self [0; 2; 0; 0] 2 1
               eq_refl eq_refl).
      + simpl. lia.
      + lia.
      + rewrite Hw. reflexivity. }
  destruct Hloop as [msg [s Hloop]].
  exists msg.
  change self with (set_circuit (new_circuit 4) self) at 1.
  unfold build_circuit.
  unfold bind at 1. unfold getattr at 1. simpl feature_dim. cbv iota.
  unfold bind at 1. change (Z.sqrt_up (prod [2; 2])) with 2.
  rewrite hadamard_loop by (simpl; lia).
  unfold bind at 1. unfold getattr at 1. simpl img_dims. cbv iota.
  unfold bind at 1. cbv zeta. rewrite Hloop. reflexivity.
Qed.

(** *** Further properties of the NEQR encoder *)

Lemma sqrt_up_square_abs : forall a, Z.sqrt_up (a * a) = Z.abs a.
Proof.
  intros a. rewrite <- Z.abs_square.
  apply Z.sqrt_up_square. apply Z.abs_nonneg.
Qed.

(** For a square image the number of position qubits is the side
    length, and the circuit is that much wider than its colour
    register. *)
Theorem neqr_feature_dim_is_side : forall check a vals m self,
  instance check [a; a] vals m self ->
  feature_dim self = Some (Z.abs a)
  /\ exists c, _circuit self = Some c
       /\ Qiskit.num_qubits c = Z.abs a + Z.log2_up (m + 1)
       /\ data c = [].
Proof.
  intros check a vals m self Hinst.
  apply instance_inv in Hinst. destruct Hinst as [_ [_ [_ [_ ->]]]].
  unfold constructed. rewrite prod_pair, sqrt_up_square_abs. simpl.
  split; [ reflexivity | ].
  eexists. split; [ reflexivity | split; reflexivity ].
Qed.

Lemma neqr_feature_dim_is_side_witness :
  feature_dim (constructed [3; 3] [0; 1; 2; 3; 4; 5; 6; 7; 8] 255) = Some 3.
Proof.
  apply (neqr_feature_dim_is_side (fun _ _ => None) 3
           [0; 1; 2; 3; 4; 5; 6; 7; 8] 255).
  reflexivity.
Defined.

Lemma log2_up_byte : forall m,
  0 <= m <= 255 ->
  0 <= Z.log2_up (m + 1) <= 8
  /\ (Z.log2_up (m + 1) = 8 <-> 128 <= m)
  /\ (Z.log2_up (m + 1) = 0 <-> m = 0).
Proof.
  intros m Hm.
  pose proof (Z.log2_up_nonneg (m + 1)) as Hnn.
  pose proof (Z.log2_up_le_pow2 (m + 1) 8 ltac:(lia)) as H8.
  pose proof (Z.log2_up_le_pow2 (m + 1) 7 ltac:(lia)) as H7.
  pose proof (Z.log2_up_le_pow2 (m + 1) 0 ltac:(lia)) as H0.
  change (2 ^ 8) with 256 in H8. change (2 ^ 7) with 128 in H7.
  change (2 ^ 0) with 1 in H0.
  assert (Hle8 : Z.log2_up (m + 1) <= 8) by (apply H8; lia).
  split; [ lia | split ].
  - split.
    + intros Heq. destruct (Z_lt_le_dec m 128) as [Hlt | Hge]; [ | exact Hge ].
      assert (Z.log2_up (m + 1) <= 7) by (apply H7; lia). lia.
    + intros Hge. destruct (Z_le_gt_dec (Z.log2_up (m + 1)) 7) as [Hle | Hgt].
      * apply H7 in Hle. lia.
      * lia.
  - split.
    + intros Heq. assert (m + 1 <= 1) by (apply H0; lia). lia.
    + intros ->. reflexivity.
Qed.

(** The colour register has between zero and eight qubits: eight
    exactly when [max_color_intensity] is at least 128, none exactly
    when it is 0. *)
Theorem neqr_color_qubits_range : forall check dims vals m self,
  instance check dims vals m self ->
  exists cq,
    color_qubits self = Some cq
    /\ 0 <= cq <= 8
    /\ (cq = 8 <-> 128 <= m)
    /\ (cq = 0 <-> m = 0).
Proof.
  intros check dims vals m self Hinst.
  apply instance_inv in Hinst. destruct Hinst as [_ [_ [Hm [_ ->]]]].
  exists (Z.log2_up (m + 1)). split; [ reflexivity | ].
  apply log2_up_byte. exact Hm.
Qed.

Lemma neqr_color_qubits_range_witness :
  exists cq,
    color_qubits (constructed [2; 2] [0; 1; 2; 3] 3) = Some cq
    /\ 0 <= cq <= 8
    /\ (cq = 8 <-> 128 <= 3)
    /\ (cq = 0 <-> 3 = 0).
Proof.
  apply (neqr_color_qubits_range (fun _ _ => None) [2; 2] [0; 1; 2; 3] 3).
  reflexivity.
Defined.

(** With a colour range of at least 128 every gate that [pixel_value]
    appends for a byte fits the circuit: its controls are the position
    qubits and its target is one of the eight colour qubits; at most
    eight gates are appended. *)
Theorem pixel_value_within_width : forall check dims vals m self p v,
  instance check dims vals m self ->
  128 <= m ->
  py_getitem "list" vals p = Ok v ->
  0 <= v <= 255 ->
  exists fd c gates,
    feature_dim self = Some fd
    /\ _circuit self = Some c
    /\ pixel_value p self = (Ok tt, set_circuit (append c gates) self)
    /\ (List.length gates <= 8)%nat
    /\ Forall (fun op =>
         match op with
         | MCT controls target =>
             Forall (fun q => 0 <= q < fd) controls
             /\ fd <= target < Qiskit.num_qubits c
         | _ => False
         end) gates.
Proof.
  intros check dims vals m self p v Hinst Hm Hget Hv.
  apply instance_inv in Hinst. destruct Hinst as [_ [_ [Hrange [Hp ->]]]].
  assert (Hcq8 : Z.log2_up (m + 1) = 8)
    by (apply (log2_up_byte m Hrange); exact Hm).
  pose proof (Z.sqrt_up_nonneg (prod dims)) as Hfd0.
  exists (Z.sqrt_up (prod dims)), (new_circuit (Z.sqrt_up (prod dims) + Z.log2_up (m + 1))),
         (color_gates (Z.sqrt_up (prod dims)) (set_bits v)).
  split; [ reflexivity | split; [ reflexivity | split; [ | split ] ] ].
  - rewrite <- (set_circuit_id (constructed dims vals m) _ eq_refl) at 1.
    rewrite (pixel_value_on (constructed dims vals m) vals
               (Z.sqrt_up (prod dims)) p v eq_refl eq_refl Hget).
    + rewrite byte_one_positions by exact Hv. reflexivity.
    + simpl. rewrite Hcq8. lia.
    + intros i Hi. rewrite byte_one_positions in Hi by exact Hv.
      apply in_set_bits in Hi. simpl. rewrite Hcq8. lia.
  - unfold color_gates, set_bits. rewrite length_map.
    etransitivity; [ apply filter_length_le | ].
    unfold py_range. rewrite length_map, length_seq. simpl. lia.
  - unfold color_gates. apply Forall_forall. intros op Hin.
    apply in_map_iff in Hin. destruct Hin as [i [<- Hi]].
    apply in_set_bits in Hi. split.
    + apply Forall_forall. intros q Hq. apply in_py_range in Hq. exact Hq.
    + simpl. rewrite Hcq8. lia.
Qed.

Lemma pixel_value_within_width_witness :
  exists fd c gates,
    feature_dim (constructed [2; 2] [0; 85; 170; 255] 255) = Some fd
    /\ _circuit (constructed [2; 2] [0; 85; 170; 255] 255) = Some c
    /\ pixel_value 3 (constructed [2; 2] [0; 85; 170; 255] 255)
       = (Ok tt, set_circuit (append c gates)
                   (constructed [2; 2] [0; 85; 170; 255] 255))
    /\ (List.length gates <= 8)%nat
    /\ Forall (fun op =>
         match op with
         | MCT controls target =>
             Forall (fun q => 0 <= q < fd) controls
             /\ fd <= target < Qiskit.num_qubits c
         | _ => False
         end) gates.
Proof.
  apply (pixel_value_within_width (fun _ _ => None) [2; 2]
           [0; 85; 170; 255] 255 _ 3 255).
  - reflexivity.
  - lia.
  - reflexivity.
  - lia.
Defined.

Lemma take_while_ext : forall (A : Type) (f g : A -> bool) items,
  (forall x, In x items -> f x = g x) ->
  take_while f items = take_while g items.
Proof.
  intros A f g items. induction items as [ | x rest IH ]; intros H; simpl.
  - reflexivity.
  - rewrite (H x (or_introl eq_refl)).
    destruct (g x); [ | reflexivity ].
    f_equal. apply IH. intros y Hy. apply H. right. exact Hy.
Qed.

(** With a colour range below 128 the circuit of an image that has
    pixels has fewer than eight colour qubits, and for an odd pixel value the gate of the lowest
    bit is aimed at qubit [feature_dim + 7], which the circuit does not
    have: [pixel_value] raises [CircuitError], leaving on the circuit
    the gates of the set bits that come before the first one without a
    qubit. *)
Theorem pixel_value_past_width : forall check dims vals m self p v,
  instance check dims vals m self ->
  0 < prod dims ->
  m <= 127 ->
  py_getitem "list" vals p = Ok v ->
  0 <= v <= 255 ->
  Z.odd v = true ->
  exists fd cq msg,
    feature_dim self = Some fd
    /\ color_qubits self = Some cq
    /\ cq <= 7
    /\ In 7 (set_bits v)
    /\ fst (pixel_value p self) = Raise (CircuitError msg)
    /\ _circuit (snd (pixel_value p self))
       = Some (mkCircuit (fd + cq)
                 (color_gates fd (take_while (fun i => i <? cq) (set_bits v)))).
Proof.
  intros check dims vals m self p v Hinst Hpixels Hm Hget Hv Hodd.
  apply instance_inv in Hinst. destruct Hinst as [_ [_ [Hrange [Hp ->]]]].
  destruct (log2_up_byte m Hrange) as [Hr [H8 _]].
  assert (Hlt : Z.log2_up (m + 1) <= 7).
  { destruct (Z.eq_dec (Z.log2_up (m + 1)) 8) as [E | E].
    - apply H8 in E. lia.
    - lia. }
  pose proof (Z.sqrt_up_nonneg (prod dims)) as Hfd0.
  set (fd := Z.sqrt_up (prod dims)) in *.
  set (cq := Z.log2_up (m + 1)) in *.
  assert (H7 : In 7 (set_bits v)).
  { apply in_set_bits. split; [ lia | ].
    change (7 - 7) with 0. rewrite Z.bit0_odd. exact Hodd. }
  assert (Hrun :
    pixel_value p (set_circuit (new_circuit (fd + cq)) (constructed dims vals m))
    = (Raise (CircuitError "Index out of range."),
       set_circuit
         (append (new_circuit (fd + cq))
            (color_gates fd
               (take_while (fun i => valid_index (fd + cq) (fd + i))
                  (one_positions (format_0_right_b 8 v)))))
         (constructed dims vals m))).
  { apply (pixel_value_refused (constructed dims vals m) vals fd p v
             eq_refl eq_refl Hget (new_circuit (fd + cq))).
    - simpl. lia.
    - rewrite byte_one_positions by exact Hv.
      apply existsb_exists. exists 7. split; [ exact H7 | ].
      simpl. unfold valid_index.
      destruct (Z.ltb_spec (fd + 7) (fd + cq)); [ lia | ].
      rewrite andb_false_r. reflexivity. }
  exists fd, cq, "Index out of range.".
  split; [ reflexivity | split; [ reflexivity | split; [ exact Hlt | ] ] ].
  split; [ exact H7 | ].
  assert (Hself : set_circuit (new_circuit (fd + cq)) (constructed dims vals m)
                  = constructed dims vals m) by reflexivity.
  rewrite Hself in Hrun. rewrite Hrun. split; [ reflexivity | ].
  simpl. rewrite byte_one_positions by exact Hv.
  assert (Hsame :
    take_while (fun i => valid_index (fd + cq) (fd + i)) (set_bits v)
    = take_while (fun i => i <? cq) (set_bits v)).
  { apply take_while_ext.
    intros i Hi. apply in_set_bits in Hi. unfold valid_index.
    destruct (Z.leb_spec (- (fd + cq)) (fd + i)); [ | lia ]. simpl.
    destruct (Z.ltb_spec (fd + i) (fd + cq)); destruct (Z.ltb_spec i cq);
      try reflexivity; lia. }
  rewrite Hsame. reflexivity.
Qed.

(** Colours up to 127 give seven colour qubits; pixel value 129
    (binary 10000001) gets the gate of its highest bit and is refused
    at its lowest. *)
Lemma pixel_value_past_width_witness :
  exists msg,
    fst (pixel_value 1 (constructed [2; 2] [0; 129; 0; 0] 127))
    = Raise (CircuitError msg)
    /\ _circuit (snd (pixel_value 1 (constructed [2; 2] [0; 129; 0; 0] 127)))
       = Some (mkCircuit 9 [MCT [0; 1] 2]).
Proof.
  destruct (pixel_value_past_width (fun _ _ => None) [2; 2] [0; 129; 0; 0] 127
              (constructed [2; 2] [0; 129; 0; 0] 127) 1 129)
    as [fd [cq [msg [Hfd [Hcq [_ [_ [Hraise Hcirc]]]]]]]].
  - reflexivity.
  - vm_compute. reflexivity.
  - lia.
  - reflexivity.
  - lia.
  - reflexivity.
  - simpl in Hfd, Hcq. injection Hfd as <-. injection Hcq as <-.
    exists msg. split; [ exact Hraise | exact Hcirc ].
Defined.

(** An index outside the pixel list raises [IndexError] and leaves the
    object, circuit included, as it was. *)
Theorem pixel_value_index_error : forall self vals p,
  pixel_vals self = Some vals ->
  p < - Z.of_nat (List.length vals) \/ Z.of_nat (List.length vals) <= p ->
  pixel_value p self = (Raise (IndexError "list index out of range"), self).
Proof.
  intros self vals p Hvals Hp.
  unfold pixel_value, bind at 1. unfold getattr at 1. rewrite Hvals.
  unfold bind at 1. unfold lift, py_getitem.
  destruct (Z.ltb_spec p 0) as [Hneg | Hnn].
  - destruct (Z.ltb_spec (p + Z.of_nat (List.length vals)) 0); [ | lia ].
    reflexivity.
  - destruct (Z.ltb_spec p 0); [ lia | ].
    destruct (Z.leb_spec (Z.of_nat (List.length vals)) p); [ | lia ].
    reflexivity.
Qed.

Lemma pixel_value_index_error_witness :
  pixel_value 4 (constructed [2; 2] [0; 1; 2; 3] 255)
  = (Raise (IndexError "list index out of range"),
     constructed [2; 2] [0; 1; 2; 3] 255).
Proof.
  apply (pixel_value_index_error (constructed [2; 2] [0; 1; 2; 3] 255)
           [0; 1; 2; 3] 4 eq_refl).
  right. simpl. lia.
Defined.

(** A negative index counts from the end of the pixel list:
    [pixel_value(p)] for [-len <= p < 0] does what [pixel_value(len + p)]
    does. *)
Theorem pixel_value_negative_index : forall self vals p,
  pixel_vals self = Some vals ->
  - Z.of_nat (List.length vals) <= p < 0 ->
  pixel_value p self = pixel_value (p + Z.of_nat (List.length vals)) self.
Proof.
  intros self vals p Hvals Hp.
  assert (Hget : py_getitem "list" vals p
                 = py_getitem "list" vals (p + Z.of_nat (List.length vals))).
  { assert (H1 : (p <? 0) = true) by (apply Z.ltb_lt; lia).
    assert (H2 : (p + Z.of_nat (List.length vals) <? 0) = false)
      by (apply Z.ltb_ge; lia).
    unfold py_getitem. cbv zeta. rewrite H1. cbv iota.
    repeat (rewrite H2; cbv iota). reflexivity. }
  unfold pixel_value, bind, getattr, lift. rewrite Hvals. cbv beta iota.
  rewrite Hget. reflexivity.
Qed.

Lemma pixel_value_negative_index_witness :
  pixel_value (-1) (constructed [2; 2] [0; 1; 2; 3] 255)
  = pixel_value 3 (constructed [2; 2] [0; 1; 2; 3] 255).
Proof.
  apply (pixel_value_negative_index (constructed [2; 2] [0; 1; 2; 3] 255)
           [0; 1; 2; 3] (-1) eq_refl).
  simpl. lia.
Defined.

(** *** The whole encoding loop *)

Lemma for_each_stops :
  forall (A : Type) (f : A -> list Op) (body : A -> M NEQR unit) self
         (width : Z) (done : list A) (x : A) (rest : list A) (e : exn)
         (partial : list Op),
  (forall y, In y done -> forall c,
     Qiskit.num_qubits c = width ->
     body y (set_circuit c self) = (Ok tt, set_circuit (append c (f y)) self)) ->
  (forall c,
     Qiskit.num_qubits c = width ->
     body x (set_circuit c self)
     = (Raise e, set_circuit (append c partial) self)) ->
  forall c,
    Qiskit.num_qubits c = width ->
    for_each (done ++ x :: rest) body (set_circuit c self)
    = (Raise e, set_circuit (append c (flat_map f done ++ partial)) self).
Proof.
  intros A f body self width done x rest e partial.
  induction done as [ | y done IH ]; intros Hdone Hx c Hw.
  - simpl. unfold bind. rewrite (Hx c Hw). reflexivity.
  - simpl. unfold bind. rewrite (Hdone y (or_introl eq_refl) c Hw).
    fold (bind (for_each (done ++ x :: rest) body) (fun _ => ret tt)).
    rewrite IH;
      [ | intros z Hz; apply Hdone; right; exact Hz | exact Hx | exact Hw ].
    rewrite append_ops_assoc, <- app_assoc. reflexivity.
Qed.

Lemma py_range_split : forall k n,
  0 <= k < n ->
  exists rest, py_range 0 n = py_range 0 k ++ k :: rest.
Proof.
  intros k n Hk. unfold py_range. rewrite !Z.sub_0_r.
  replace (Z.to_nat n)
    with (Z.to_nat k + S (Z.to_nat n - Z.to_nat k - 1))%nat by lia.
  rewrite seq_app, map_app. simpl seq. simpl map.
  eexists. f_equal. f_equal. lia.
Qed.

(** One pass of the pixel loop for a pixel whose gates all land on the
    circuit. *)
Lemma pixel_pass : forall position_ops self vals fd width pixel,
  pixel_vals self = Some vals ->
  feature_dim self = Some fd ->
  0 <= pixel < Z.of_nat (List.length vals) ->
  0 <= fd ->
  fd + 8 <= width ->
  0 <= nth (Z.to_nat pixel) vals 0 <= 255 ->
  forallb (accepts width) (position_ops (format_0_right_b 2 pixel)) = true ->
  forall c,
    Qiskit.num_qubits c = width ->
    bind (pixel_position position_ops (format_0_right_b 2 pixel))
      (fun _ => bind (pixel_value pixel)
         (fun _ => pixel_position position_ops (format_0_right_b 2 pixel)))
      (set_circuit c self)
    = (Ok tt, set_circuit (append c (pixel_block position_ops fd vals pixel)) self).
Proof.
  intros position_ops self vals fd width pixel Hvals Hfd Hp Hfd0 Hwide Hbyte
         Hpos c Hw.
  unfold bind at 1. unfold pixel_position at 1.
  rewrite append_ops_on by (rewrite Hw; exact Hpos).
  unfold bind at 1.
  rewrite (pixel_value_on self vals fd pixel
             (nth (Z.to_nat pixel) vals 0) Hvals Hfd
             (getitem_in_range vals pixel Hp)).
  - unfold pixel_position.
    rewrite append_ops_on by (simpl; rewrite Hw; exact Hpos).
    rewrite !append_ops_assoc. reflexivity.
  - simpl. lia.
  - intros i Hi. rewrite byte_one_positions in Hi by exact Hbyte.
    apply in_set_bits in Hi. simpl. lia.
Qed.

(** The pass for the first pixel that has no value. *)
Lemma pixel_pass_fails : forall position_ops self vals width,
  pixel_vals self = Some vals ->
  forallb (accepts width)
    (position_ops (format_0_right_b 2 (Z.of_nat (List.length vals)))) = true ->
  forall c,
    Qiskit.num_qubits c = width ->
    bind (pixel_position position_ops
            (format_0_right_b 2 (Z.of_nat (List.length vals))))
      (fun _ => bind (pixel_value (Z.of_nat (List.length vals)))
         (fun _ => pixel_position position_ops
                     (format_0_right_b 2 (Z.of_nat (List.length vals)))))
      (set_circuit c self)
    = (Raise (IndexError "list index out of range"),
       set_circuit
         (append c (position_ops
                      (format_0_right_b 2 (Z.of_nat (List.length vals)))))
         self).
Proof.
  intros position_ops self vals width Hvals Hpos c Hw.
  unfold bind at 1. unfold pixel_position at 1.
  rewrite append_ops_on by (rewrite Hw; exact Hpos).
  unfold bind at 1.
  assert (Hfail : forall s,
    pixel_vals s = Some vals ->
    pixel_value (Z.of_nat (List.length vals)) s
    = (Raise (IndexError "list index out of range"), s)).
  { intros s Hs. unfold pixel_value, bind at 1. unfold getattr at 1.
    rewrite Hs. unfold bind at 1. unfold lift, py_getitem.
    destruct (Z.ltb_spec (Z.of_nat (List.length vals)) 0); [ lia | ].
    destruct (Z.ltb_spec (Z.of_nat (List.length vals)) 0); [ lia | ].
    rewrite Z.leb_refl. reflexivity. }
  rewrite Hfail by exact Hvals. reflexivity.
Qed.

Lemma build_circuit_run : forall position_ops self dims vals fd c,
  img_dims self = Some dims ->
  pixel_vals self = Some vals ->
  feature_dim self = Some fd ->
  prod dims <= Z.of_nat (List.length vals) ->
  encodable position_ops fd (Qiskit.num_qubits c) vals (prod dims) ->
  build_circuit position_ops (set_circuit c self)
  = (Ok (append c (map H (py_range 0 fd)
                   ++ flat_map (pixel_block position_ops fd vals)
                        (py_range 0 (prod dims)))),
     set_circuit
       (append c (map H (py_range 0 fd)
                  ++ flat_map (pixel_block position_ops fd vals)
                       (py_range 0 (prod dims))))
       self).
Proof.
  intros position_ops self dims vals fd c Hdims Hvals Hfd Hlen
         [Hfd0 [Hwide Hpix]].
  unfold build_circuit.
  unfold bind at 1. unfold getattr at 1. simpl feature_dim. rewrite Hfd.
  unfold bind at 1. rewrite hadamard_loop by lia.
  unfold bind at 1. unfold getattr at 1. simpl img_dims. rewrite Hdims.
  unfold bind at 1. cbv zeta.
  rewrite (for_each_appends Z (pixel_block position_ops fd vals) _ self
             (Qiskit.num_qubits c)).
  - unfold circuit, getattr. simpl _circuit.
    rewrite append_ops_assoc. reflexivity.
  - intros pixel Hin c' Hw. apply in_py_range in Hin.
    destruct (Hpix pixel Hin) as [Hbyte Hpos].
    apply (pixel_pass position_ops self vals fd (Qiskit.num_qubits c) pixel
             Hvals Hfd); try assumption; lia.
  - reflexivity.
Qed.

(** When every gate of the encoding lands on a qubit, [build_circuit]
    appends a Hadamard gate on each of the [feature_dim] position
    qubits, then for every pixel index in increasing order the position
    embedding of its binary text, its colour gates and the same
    position embedding again, and returns the stored circuit. *)
Theorem build_circuit_sequence : forall position_ops self dims vals fd c,
  img_dims self = Some dims ->
  pixel_vals self = Some vals ->
  feature_dim self = Some fd ->
  _circuit self = Some c ->
  prod dims <= Z.of_nat (List.length vals) ->
  encodable position_ops fd (Qiskit.num_qubits c) vals (prod dims) ->
  let ops :=
    map H (py_range 0 fd)
    ++ flat_map (pixel_block position_ops fd vals) (py_range 0 (prod dims)) in
  build_circuit position_ops self
  = (Ok (append c ops), set_circuit (append c ops) self)
  /\ _circuit (snd (build_circuit position_ops self))
     = Some (mkCircuit (Qiskit.num_qubits c) (data c ++ ops)).
Proof.
  intros position_ops self dims vals fd c Hdims Hvals Hfd Hc Hlen Henc ops.
  assert (Hrun : build_circuit position_ops self
                 = (Ok (append c ops), set_circuit (append c ops) self)).
  { rewrite <- (set_circuit_id self c Hc) at 1.
    apply (build_circuit_run position_ops self dims vals fd c
             Hdims Hvals Hfd Hlen Henc). }
  split; [ exact Hrun | rewrite Hrun; reflexivity ].
Qed.

(** A 2 x 2 image with eight colour qubits, whose position embedding
    flips the qubits that are 0 in the position text. *)
Lemma build_circuit_sequence_witness :
  let position_ops := fun s =>
    map (fun p => Gate "x" [fst p])
        (filter (fun p => Ascii.eqb (snd p) "0") (enumerate s)) in
  _circuit (snd (build_circuit position_ops
                   (constructed [2; 2] [0; 128; 1; 3] 255)))
  = Some (mkCircuit 10
            [H 0; H 1;
             Gate "x" [0]; Gate "x" [1]; Gate "x" [0]; Gate "x" [1];
             Gate "x" [0]; MCT [0; 1] 2; Gate "x" [0];
             Gate "x" [1]; MCT [0; 1] 9; Gate "x" [1];
             MCT [0; 1] 8; MCT [0; 1] 9]).
Proof.
  intros position_ops.
  apply (build_circuit_sequence position_ops
           (constructed [2; 2] [0; 128; 1; 3] 255) [2; 2] [0; 128; 1; 3] 2
           (new_circuit 10) eq_refl eq_refl eq_refl eq_refl).
  - vm_compute. discriminate.
  - split; [ lia | split; [ simpl; lia | ] ].
    intros pixel Hp. change (prod [2; 2]) with 4 in Hp.
    assert (Hcases : pixel = 0 \/ pixel = 1 \/ pixel = 2 \/ pixel = 3) by lia.
    destruct Hcases as [-> | [-> | [-> | ->]]];
      (split; [ simpl; lia | reflexivity ]).
Defined.

(** The circuit is shared between calls: when every gate of the
    encoding lands on a qubit, a second [build_circuit] appends the
    whole encoding again after the first. *)
Theorem build_circuit_twice : forall position_ops self dims vals fd c,
  img_dims self = Some dims ->
  pixel_vals self = Some vals ->
  feature_dim self = Some fd ->
  _circuit self = Some c ->
  prod dims <= Z.of_nat (List.length vals) ->
  encodable position_ops fd (Qiskit.num_qubits c) vals (prod dims) ->
  let ops :=
    map H (py_range 0 fd)
    ++ flat_map (pixel_block position_ops fd vals) (py_range 0 (prod dims)) in
  fst (build_circuit position_ops (snd (build_circuit position_ops self)))
  = Ok (append c (ops ++ ops))
  /\ _circuit (snd (build_circuit position_ops
                      (snd (build_circuit position_ops self))))
     = Some (mkCircuit (Qiskit.num_qubits c) (data c ++ ops ++ ops)).
Proof.
  intros position_ops self dims vals fd c Hdims Hvals Hfd Hc Hlen Henc ops.
  assert (Hfirst : build_circuit position_ops self
                   = (Ok (append c ops), set_circuit (append c ops) self)).
  { rewrite <- (set_circuit_id self c Hc) at 1.
    apply (build_circuit_run position_ops self dims vals fd c
             Hdims Hvals Hfd Hlen Henc). }
  rewrite Hfirst. simpl snd.
  rewrite (build_circuit_run position_ops self dims vals fd (append c ops)
             Hdims Hvals Hfd Hlen Henc).
  rewrite append_ops_assoc. split; reflexivity.
Qed.

Lemma build_circuit_twice_witness :
  let position_ops := fun s => [Gate s [0]] in
  let self := constructed [1; 1] [1] 255 in
  _circuit (snd (build_circuit position_ops
                   (snd (build_circuit position_ops self))))
  = Some (mkCircuit 9
            [H 0; Gate "00" [0]; MCT [0] 8; Gate "00" [0];
             H 0; Gate "00" [0]; MCT [0] 8; Gate "00" [0]]).
Proof.
  intros position_ops self.
  apply (build_circuit_twice position_ops self [1; 1] [1] 1
           (new_circuit 9) eq_refl eq_refl eq_refl eq_refl).
  - vm_compute. discriminate.
  - split; [ lia | split; [ simpl; lia | ] ].
    intros pixel Hp. change (prod [1; 1]) with 1 in Hp.
    assert (pixel = 0) as -> by lia.
    split; [ simpl; lia | reflexivity ].
Defined.

(** With fewer pixel values than pixels, on a circuit that takes every
    gate of the pixels that have a value, [build_circuit] raises
    [IndexError] at the first pixel without a value, and nothing is
    undone: the Hadamard gates, the encodings of the pixels before it
    and the position embedding of that pixel stay on the circuit. *)
Theorem build_circuit_short_pixel_vals :
  forall position_ops self dims vals fd c,
  img_dims self = Some dims ->
  pixel_vals self = Some vals ->
  feature_dim self = Some fd ->
  _circuit self = Some c ->
  Z.of_nat (List.length vals) < prod dims ->
  let missing := Z.of_nat (List.length vals) in
  encodable position_ops fd (Qiskit.num_qubits c) vals missing ->
  forallb (accepts (Qiskit.num_qubits c))
    (position_ops (format_0_right_b 2 missing)) = true ->
  build_circuit position_ops self
  = (Raise (IndexError "list index out of range"),
     set_circuit
       (append c (map H (py_range 0 fd)
                  ++ flat_map (pixel_block position_ops fd vals)
                       (py_range 0 missing)
                  ++ position_ops (format_0_right_b 2 missing)))
       self).
Proof.
  intros position_ops self dims vals fd c Hdims Hvals Hfd Hc Hlen missing
         [Hfd0 [Hwide Hpix]] Hpos.
  rewrite <- (set_circuit_id self c Hc) at 1.
  unfold build_circuit.
  unfold bind at 1. unfold getattr at 1. simpl feature_dim. rewrite Hfd.
  unfold bind at 1. rewrite hadamard_loop by lia.
  unfold bind at 1. unfold getattr at 1. simpl img_dims. rewrite Hdims.
  unfold bind at 1. cbv zeta.
  destruct (py_range_split missing (prod dims)) as [rest Hsplit];
    [ unfold missing; lia | ].
  rewrite Hsplit.
  rewrite (for_each_stops Z (pixel_block position_ops fd vals) _ self
             (Qiskit.num_qubits c)
             (py_range 0 missing) missing rest
             (IndexError "list index out of range")
             (position_ops (format_0_right_b 2 missing))).
  - rewrite append_ops_assoc. reflexivity.
  - intros pixel Hin c' Hw. apply in_py_range in Hin.
    destruct (Hpix pixel Hin) as [Hbyte Hp].
    apply (pixel_pass position_ops self vals fd (Qiskit.num_qubits c) pixel
             Hvals Hfd); try assumption; lia.
  - intros c' Hw.
    apply (pixel_pass_fails position_ops self vals (Qiskit.num_qubits c)
             Hvals Hpos c' Hw).
  - reflexivity.
Qed.

Lemma build_circuit_short_pixel_vals_witness :
  let position_ops := fun s => [Gate s [0]] in
  let self := constructed [2; 2] [128] 255 in
  build_circuit position_ops self
  = (Raise (IndexError "list index out of range"),
     set_circuit
       (mkCircuit 10
          [H 0; H 1; Gate "00" [0]; MCT [0; 1] 2; Gate "00" [0];
           Gate "01" [0]])
       self).
Proof.
  intros position_ops self.
  pose proof (build_circuit_short_pixel_vals position_ops self [2; 2] [128] 2
                (new_circuit 10) eq_refl eq_refl eq_refl eq_refl) as Hrun.
  rewrite Hrun.
  - reflexivity.
  - vm_compute. reflexivity.
  - split; [ lia | split; [ simpl; lia | ] ].
    intros pixel Hp. simpl in Hp. assert (pixel = 0) as -> by lia.
    split; [ simpl; lia | reflexivity ].
  - reflexivity.
Defined.

(** *** The binary texts *)

Lemma string_length_append : forall s1 s2,
  String.length (s1 ++ s2) = (String.length s1 + String.length s2)%nat.
Proof.
  intros s1 s2. induction s1 as [ | ch s1 IH ]; simpl.
  - reflexivity.
  - rewrite IH. reflexivity.
Qed.

Lemma parse_binary_from_append : forall s1 s2 acc,
  parse_binary_from acc (s1 ++ s2)
  = parse_binary_from (parse_binary_from acc s1) s2.
Proof.
  intros s1 s2. induction s1 as [ | ch s1 IH ]; intros acc; simpl.
  - reflexivity.
  - apply IH.
Qed.

Lemma parse_bin_digits : forall p, parse_binary_from 0 (bin_digits p) = Z.pos p.
Proof.
  induction p as [ q IH | q IH | ]; simpl.
  - rewrite parse_binary_from_append, IH. reflexivity.
  - rewrite parse_binary_from_append, IH. reflexivity.
  - reflexivity.
Qed.

Lemma parse_fill_zero : forall k s,
  parse_binary_from 0 (fill_string "0" k ++ s) = parse_binary_from 0 s.
Proof.
  induction k as [ | k IH ]; intros s; simpl.
  - reflexivity.
  - apply IH.
Qed.

Lemma parse_format : forall width z,
  0 <= z -> parse_binary (format_0_right_b width z) = z.
Proof.
  intros width z Hz. unfold parse_binary, format_0_right_b.
  rewrite parse_fill_zero.
  destruct z as [ | p | p ]; [ reflexivity | apply parse_bin_digits | lia ].
Qed.

(** The binary text of a pixel index or colour value reads back to the
    number it was made from, whatever the field width; so two different
    pixels never get the same position text. *)
Theorem binary_text_round_trip : forall width p q,
  0 <= p ->
  0 <= q ->
  parse_binary (format_0_right_b width p) = p
  /\ (format_0_right_b width p = format_0_right_b width q -> p = q).
Proof.
  intros width p q Hp Hq. split.
  - apply parse_format. exact Hp.
  - intros Heq. rewrite <- (parse_format width p Hp).
    rewrite Heq. apply parse_format. exact Hq.
Qed.

Lemma binary_text_round_trip_witness :
  parse_binary (format_0_right_b 2 6) = 6
  /\ (format_0_right_b 2 6 = format_0_right_b 2 3 -> 6 = 3).
Proof.
  apply (binary_text_round_trip 2 6 3); lia.
Defined.

Lemma bin_digits_length : forall p,
  String.length (bin_digits p) = Pos.size_nat p.
Proof.
  induction p as [ q IH | q IH | ]; simpl.
  - rewrite string_length_append, IH. simpl. lia.
  - rewrite string_length_append, IH. simpl. lia.
  - reflexivity.
Qed.

Lemma size_nat_small : forall p, (Pos.size_nat p <= 2)%nat <-> (p <= 3)%positive.
Proof.
  intros p.
  assert (Hpos : forall q, (1 <= Pos.size_nat q)%nat)
    by (intros q; destruct q; simpl; lia).
  destruct p as [ [ q | q | ] | [ q | q | ] | ]; simpl;
    try (pose proof (Hpos q)); split; intros; lia.
Qed.

(** The position text that [build_circuit] hands to [pixel_position] is
    never shorter than two characters and is not cut to two: it has
    exactly two characters for the pixels 0 to 3 and more from pixel 4
    on. *)
Theorem position_text_length : forall pixel,
  0 <= pixel ->
  (2 <= String.length (format_0_right_b 2 pixel))%nat
  /\ (String.length (format_0_right_b 2 pixel) = 2%nat <-> pixel <= 3).
Proof.
  intros pixel Hp. unfold format_0_right_b.
  rewrite string_length_append.
  assert (Hfill : forall k, String.length (fill_string "0" k) = k)
    by (induction k; simpl; congruence).
  rewrite Hfill.
  destruct pixel as [ | p | p ]; [ | | lia ].
  - simpl. split; [ lia | split; intros; lia ].
  - simpl format_b. rewrite bin_digits_length.
    pose proof (size_nat_small p) as Hsmall.
    assert (Hpos : (1 <= Pos.size_nat p)%nat) by (destruct p; simpl; lia).
    split; [ lia | ].
    split.
    + intros Hlen. assert ((p <= 3)%positive) by (apply Hsmall; lia). lia.
    + intros Hle. assert ((Pos.size_nat p <= 2)%nat) by (apply Hsmall; lia).
      lia.
Qed.

Lemma position_text_length_witness :
  (2 <= String.length (format_0_right_b 2 4))%nat
  /\ (String.length (format_0_right_b 2 4) = 2%nat <-> 4 <= 3).
Proof.
  apply (position_text_length 4). lia.
Defined.

End NEQRProofs.


(** ** The quanvolutional layer *)

Module QuanvolutionalLayerProofs.

Import QuanvolutionalLayer.

(** *** The constructor up to the stride check *)

Section StrideCheck.

Variable base_layer_check : Z -> option exn.
Variables items sizes : list pyval.
Variable size0 : pyval.
Variable smallest : Z.
Variables vals random_arg : pyval.

(** The arguments before [stride] pass their checks. *)
Hypothesis dims_ints : forallb isinstance_int items = true.
Hypothesis base_accepts : base_layer_check (math_prod items) = None.
Hypothesis sizes_ints : forallb isinstance_int sizes = true.
Hypothesis sizes_first : nth_error sizes 0 = Some size0.
Hypothesis dims_min : py_min items = Ok smallest.
Hypothesis filter_fits : int_value size0 <= smallest.

Lemma init_from_stride : forall stride_arg,
  __init__ base_layer_check (PyTuple items) (PyTuple sizes) stride_arg vals
    random_arg new
  = if negb (isinstance_int stride_arg)
    then (Raise (TypeError "The input stride must be of the type int."),
          before_stride items sizes)
    else
      if (int_value stride_arg <=? 0) || (int_value stride_arg >? smallest)
      then (Raise (ValueError
              "The input stride must be at least 1 and less than or equal to the minimum image dimension."),
            before_stride items sizes)
      else
        if negb (isinstance_bool random_arg)
        then (Raise (TypeError "The input random must be of the type bool."),
              set_stride stride_arg (before_stride items sizes))
        else (Ok tt,
              set_pixel_vals vals
                (set_random random_arg
                   (set_stride stride_arg (before_stride items sizes)))).
Proof.
  intros stride_arg.
  assert (Hget : py_getitem "tuple" sizes 0 = Ok size0).
  { unfold py_getitem. simpl.
    destruct sizes as [ | s0 rest ]; [ discriminate | ].
    simpl in sizes_first. injection sizes_first as ->. reflexivity. }
  assert (Hgt : (int_value size0 >? smallest) = false).
  { destruct (Z.gtb_spec (int_value size0) smallest); [ lia | reflexivity ]. }
  unfold __init__, BaseLayer__init__, bind, lift, modify, getattr, ret, raise.
  simpl. rewrite dims_ints. simpl. rewrite base_accepts.
  rewrite sizes_ints. simpl. rewrite Hget. rewrite dims_min. rewrite Hgt.
  destruct (isinstance_int stride_arg); simpl; [ | reflexivity ].
  destruct (int_value stride_arg <=? 0) eqn:Hle; simpl; [ reflexivity | ].
  destruct (int_value stride_arg >? smallest); simpl; [ reflexivity | ].
  destruct (isinstance_bool random_arg); reflexivity.
Qed.

End StrideCheck.

(** C10: once the arguments before it have passed their checks,
    [stride=None] raises the [TypeError] of the stride check although
    the parameter is declared [Optional[int]]; an int stride raises a
    [ValueError] exactly when it is at most 0 or larger than
    [min(img_dims)], and is otherwise stored unchanged. *)
Theorem stride_check :
  forall (base_layer_check : Z -> option exn)
         (items sizes : list pyval) (size0 : pyval) (smallest : Z)
         (vals random_arg : pyval),
  forallb isinstance_int items = true ->
  base_layer_check (math_prod items) = None ->
  forallb isinstance_int sizes = true ->
  nth_error sizes 0 = Some size0 ->
  py_min items = Ok smallest ->
  int_value size0 <= smallest ->
  let init := fun stride_arg =>
    __init__ base_layer_check (PyTuple items) (PyTuple sizes) stride_arg
      vals random_arg new in
  fst (init PyNone)
    = Raise (TypeError "The input stride must be of the type int.")
  /\ forall stride_arg,
       isinstance_int stride_arg = true ->
       ((exists msg, fst (init stride_arg) = Raise (ValueError msg))
        <-> (int_value stride_arg <= 0 \/ smallest < int_value stride_arg))
       /\ (~ (int_value stride_arg <= 0 \/ smallest < int_value stride_arg) ->
           stride (snd (init stride_arg)) = Some stride_arg).
Proof.
  intros base_layer_check items sizes size0 smallest vals random_arg
         Hd Hb Hs Hs0 Hmin Hfit init.
  split.
  - unfold init.
    rewrite (init_from_stride base_layer_check items sizes size0 smallest
               vals random_arg Hd Hb Hs Hs0 Hmin Hfit).
    reflexivity.
  - intros stride_arg Hint. unfold init.
    rewrite (init_from_stride base_layer_check items sizes size0 smallest
               vals random_arg Hd Hb Hs Hs0 Hmin Hfit).
    rewrite Hint. simpl negb. cbv iota.
    destruct (Z.leb_spec (int_value stride_arg) 0) as [Hle | Hgt];
      [ | destruct (Z.gtb_spec (int_value stride_arg) smallest) as [Hbig | Hok] ];
      simpl orb; cbv iota.
    + split.
      * split; [ intros _; left; exact Hle | intros _; eexists; reflexivity ].
      * intros Hn. exfalso. apply Hn. left. exact Hle.
    + split.
      * split; [ intros _; right; lia | intros _; eexists; reflexivity ].
      * intros Hn. exfalso. apply Hn. right. lia.
    + split.
      * split.
        -- intros [msg H]. destruct (isinstance_bool random_arg); discriminate.
        -- intros [H | H]; lia.
      * intros _. destruct (isinstance_bool random_arg); reflexivity.
Qed.

(** A 4 x 4 image with a 2 x 2 filter: [None] is refused, stride 5 is
    too large, stride 2 is stored. *)
Lemma stride_check_witness :
  let init := fun stride_arg =>
    __init__ (fun _ => None) (PyTuple [PyInt 4; PyInt 4])
      (PyTuple [PyInt 2; PyInt 2]) stride_arg (PyList []) (PyBool true) new in
  fst (init PyNone)
    = Raise (TypeError "The input stride must be of the type int.")
  /\ (exists msg, fst (init (PyInt 5)) = Raise (ValueError msg))
  /\ stride (snd (init (PyInt 2))) = Some (PyInt 2).
Proof.
  intros init.
  pose proof (stride_check (fun _ => None) [PyInt 4; PyInt 4]
                [PyInt 2; PyInt 2] (PyInt 2) 4 (PyList []) (PyBool true)
                eq_refl eq_refl eq_refl eq_refl eq_refl) as H.
  destruct H as [Hnone Hint].
  - simpl. lia.
  - split; [ exact Hnone | split ].
    + apply (Hint (PyInt 5) eq_refl). right. simpl. lia.
    + apply (Hint (PyInt 2) eq_refl). simpl. lia.
Defined.

(** *** What a constructed layer holds *)

Lemma bind_ok : forall (S A B : Type) (c : M S A) (k : A -> M S B) s b s',
  bind c k s = (Ok b, s') ->
  exists a s1, c s = (Ok a, s1) /\ k a s1 = (Ok b, s').
Proof.
  intros S A B c k s b s' H. unfold bind in H.
  destruct (c s) as [[a | e] s1].
  - exists a, s1. split; [ reflexivity | exact H ].
  - discriminate.
Qed.

(** One step back through a computation that returned. *)
Ltac ok_step H :=
  match type of H with
  | bind _ _ _ = (Ok _, _) =>
      let a := fresh "a" in
      let s := fresh "s" in
      let Ha := fresh "Hstep" in
      apply bind_ok in H; destruct H as (a & s & Ha & H)
  | (if ?c then _ else _) _ = (Ok _, _) =>
      let Hc := fresh "Hcond" in
      destruct c eqn:Hc; [ try discriminate H | try discriminate H ]
  end.

Lemma instance_attributes :
  forall base_layer_check dims filter stride_arg vals random_arg self,
  instance base_layer_check dims filter stride_arg vals random_arg self ->
  exists b,
    random_arg = PyBool b
    /\ random self = Some (PyBool b)
    /\ stride self = Some stride_arg
    /\ filter_size self = Some filter
    /\ pixel_vals self = Some vals.
Proof.
  intros base_layer_check dims filter stride_arg vals random_arg self H.
  unfold instance, __init__ in H.
  repeat ok_step H.
  assert (Hsame : s8 = s7).
  { destruct (int_value stride_arg <=? 0).
    - unfold ret in Hstep8. congruence.
    - unfold bind, lift, ret in Hstep8.
      destruct (py_min a); congruence. }
  unfold modify in *.
  injection H as <-. injection Hstep10 as _ <-. injection Hstep9 as _ <-.
  injection Hstep7 as _ Hs7. subst s8 s7.
  destruct random_arg; try discriminate Hcond4.
  exists b. repeat split.
Qed.

(** C9: on a constructed layer [build_sub_circuits] returns the circuit
    that [random_circuit] draws for one qubit, depth two, with
    measurement, when [random] is [True], and [None] when it is
    [False]; the sub-image plays no part and the layer is unchanged. *)
Theorem build_sub_circuits_result :
  forall (base_layer_check : Z -> option exn)
         (RandomState RandomCircuit : Type)
         (random_circuit :
            Z -> Z -> Z -> bool -> RandomState -> RandomCircuit * RandomState)
         dims filter stride_arg vals random_arg self,
  instance base_layer_check dims filter stride_arg vals random_arg self ->
  exists b,
    random_arg = PyBool b
    /\ forall sub_image g,
         build_sub_circuits RandomState RandomCircuit random_circuit
           sub_image g self
         = (Ok (if b
                then (Some (fst (random_circuit 1 2 3 true g)),
                      snd (random_circuit 1 2 3 true g))
                else (None, g)),
            self).
Proof.
  intros base_layer_check RandomState RandomCircuit random_circuit
         dims filter stride_arg vals random_arg self Hinst.
  destruct (instance_attributes _ _ _ _ _ _ _ Hinst) as [b [Hb [Hr _]]].
  exists b. split; [ exact Hb | ].
  intros sub_image g.
  unfold build_sub_circuits, bind, getattr. rewrite Hr. simpl truthy.
  destruct b.
  - destruct (random_circuit 1 2 3 true g) as [c g']. reflexivity.
  - reflexivity.
Qed.

(** A layer with [random=True], and a generator that counts its draws
    and hands back what it was asked for. *)
Lemma build_sub_circuits_result_witness :
  let draw := fun (n d k : Z) (m : bool) (g : nat) => ((n, d, k, m, g), S g) in
  let self :=
    snd (__init__ (fun _ => None) (PyTuple [PyInt 4; PyInt 4])
           (PyTuple [PyInt 2; PyInt 2]) (PyInt 2) (PyList []) (PyBool true)
           new) in
  build_sub_circuits nat _ draw (PyList [PyInt 7]) 0%nat self
  = (Ok (Some (1, 2, 3, true, 0%nat), 1%nat), self)
  /\ build_sub_circuits nat _ draw PyNone 0%nat self
     = (Ok (Some (1, 2, 3, true, 0%nat), 1%nat), self).
Proof.
  intros draw self.
  destruct (build_sub_circuits_result (fun _ => None) nat _ draw
              (PyTuple [PyInt 4; PyInt 4]) (PyTuple [PyInt 2; PyInt 2])
              (PyInt 2) (PyList []) (PyBool true) self eq_refl)
    as [b [Hb Hrun]].
  injection Hb as <-.
  split; apply Hrun.
Defined.

(** C4: [build_layer] never returns.  When the layer is constructed and
    [produce_sub_images] hands back its sub-images, the [return]
    statement loads the name [circuit_list], which no scope binds. *)
Theorem build_layer_raises :
  forall (produce_sub_images : pyval -> pyval -> outcome pyval)
         (self : QuanvolutionalLayer),
  fst (build_layer produce_sub_images self)
  = match filter_size self, pixel_vals self with
    | Some fs, Some pv =>
        match produce_sub_images fs pv with
        | Ok _ => Raise (NameError "name 'circuit_list' is not defined")
        | Raise e => Raise e
        end
    | None, _ => Raise (AttributeError "filter_size")
    | Some _, None => Raise (AttributeError "pixel_vals")
    end
  /\ (forall result, fst (build_layer produce_sub_images self) <> Ok result)
  /\ snd (build_layer produce_sub_images self) = self.
Proof.
  intros produce_sub_images self.
  unfold build_layer, bind, getattr, lift.
  destruct (filter_size self) as [fs | ]; simpl.
  - destruct (pixel_vals self) as [pv | ]; simpl.
    + destruct (produce_sub_images fs pv) as [imgs | e]; simpl.
      * repeat split. intros result H. discriminate.
      * repeat split. intros result H. discriminate.
    + repeat split. intros result H. discriminate.
  - repeat split. intros result H. discriminate.
Qed.

(** The constructed 4 x 4 layer, whatever sub-images are produced. *)
Lemma build_layer_on_instance :
  let self :=
    snd (__init__ (fun _ => None) (PyTuple [PyInt 4; PyInt 4])
           (PyTuple [PyInt 2; PyInt 2]) (PyInt 2)
           (PyList [PyInt 0; PyInt 1]) (PyBool true) new) in
  forall sub_images,
    fst (build_layer (fun _ _ => Ok sub_images) self)
    = Raise (NameError "name 'circuit_list' is not defined").
Proof. intros self sub_images. reflexivity. Qed.

(** *** Further properties of the layer constructor *)

Lemma layer_instance_inv :
  forall base_layer_check dims filter stride_arg vals random_arg self,
  instance base_layer_check dims filter stride_arg vals random_arg self ->
  exists items sizes size0 smallest b,
    dims = PyTuple items
    /\ forallb isinstance_int items = true
    /\ base_layer_check (math_prod items) = None
    /\ filter = PyTuple sizes
    /\ forallb isinstance_int sizes = true
    /\ nth_error sizes 0 = Some size0
    /\ py_min items = Ok smallest
    /\ int_value size0 <= smallest
    /\ isinstance_int stride_arg = true
    /\ 1 <= int_value stride_arg <= smallest
    /\ random_arg = PyBool b
    /\ self = mkLayer (Some dims) (Some (math_prod items)) (Some filter)
                (Some stride_arg) (Some random_arg) (Some vals).
Proof.
  intros base_layer_check dims filter stride_arg vals random_arg self H.
  unfold instance, __init__ in H.
  repeat ok_step H.
  (* img_dims *)
  apply orb_false_iff in Hcond. destruct Hcond as [Hints Htuple].
  apply negb_false_iff in Hints. apply negb_false_iff in Htuple.
  destruct dims as [ | | | | | items | ]; try discriminate Htuple.
  unfold lift in Hstep. simpl in Hstep. injection Hstep as <- <-.
  unfold modify in Hstep0. injection Hstep0 as _ <-.
  (* BaseLayer *)
  unfold BaseLayer__init__ in Hstep1.
  destruct (base_layer_check (math_prod items)) eqn:Hbase;
    [ discriminate Hstep1 | ].
  unfold modify in Hstep1. injection Hstep1 as _ <-.
  (* filter_size *)
  destruct filter as [ | | | | | sizes | ]; try discriminate Hstep2.
  unfold lift in Hstep2. simpl in Hstep2. injection Hstep2 as <- <-.
  apply negb_false_iff in Hcond0.
  unfold lift in Hstep3.
  destruct sizes as [ | size0 rest ]; [ discriminate Hstep3 | ].
  unfold py_getitem in Hstep3. simpl in Hstep3. injection Hstep3 as <- <-.
  unfold getattr in Hstep4. simpl in Hstep4. injection Hstep4 as <- <-.
  unfold lift in Hstep5. simpl in Hstep5. injection Hstep5 as <- <-.
  unfold lift in Hstep6. injection Hstep6 as Hmin <-.
  unfold modify in Hstep7. injection Hstep7 as _ <-.
  (* stride *)
  apply negb_false_iff in Hcond2.
  assert (Hstride : 1 <= int_value stride_arg <= a6 /\ s8 = set_filter_size
            (PyTuple (size0 :: rest))
            (set_num_qubits (math_prod items)
               (set_img_dims (PyTuple items) new))).
  { destruct (Z.leb_spec (int_value stride_arg) 0) as [Hle | Hgt].
    - unfold ret in Hstep8. injection Hstep8 as Hf _. congruence.
    - unfold bind, lift, ret in Hstep8. rewrite Hmin in Hstep8.
      injection Hstep8 as Hbig <-. subst a8.
      destruct (Z.gtb_spec (int_value stride_arg) a6); [ discriminate | ].
      split; [ lia | reflexivity ]. }
  destruct Hstride as [Hstride ->].
  unfold modify in Hstep9. injection Hstep9 as _ <-.
  (* random *)
  apply negb_false_iff in Hcond4.
  destruct random_arg as [ | b | | | | | ]; try discriminate Hcond4.
  unfold modify in Hstep10. injection Hstep10 as _ <-.
  unfold modify in H. injection H as <-.
  exists items, (size0 :: rest), size0, a6, b.
  assert (Hfit : int_value size0 <= a6)
    by (destruct (Z.gtb_spec (int_value size0) a6); [ discriminate | lia ]).
  repeat split; trivial; lia.
Qed.

(** The constructor succeeds exactly for a tuple of ints that
    [BaseLayer] accepts, a non-empty tuple of ints whose first entry
    is at most [min(img_dims)], an int stride between 1 and
    [min(img_dims)] and a bool [random]; the layer then holds the
    arguments as they were passed. *)
Theorem layer_constructed_iff :
  forall base_layer_check dims filter stride_arg vals random_arg self,
  instance base_layer_check dims filter stride_arg vals random_arg self
  <-> exists items sizes size0 smallest b,
        dims = PyTuple items
        /\ forallb isinstance_int items = true
        /\ base_layer_check (math_prod items) = None
        /\ filter = PyTuple sizes
        /\ forallb isinstance_int sizes = true
        /\ nth_error sizes 0 = Some size0
        /\ py_min items = Ok smallest
        /\ int_value size0 <= smallest
        /\ isinstance_int stride_arg = true
        /\ 1 <= int_value stride_arg <= smallest
        /\ random_arg = PyBool b
        /\ self = mkLayer (Some dims) (Some (math_prod items)) (Some filter)
                    (Some stride_arg) (Some random_arg) (Some vals).
Proof.
  intros base_layer_check dims filter stride_arg vals random_arg self. split.
  - apply layer_instance_inv.
  - intros [items [sizes [size0 [smallest [b H]]]]].
    destruct H as [-> [Hd [Hb [-> [Hs [Hs0 [Hmin [Hfit [Hint [Hr [-> ->]]]]]]]]]]].
    unfold instance.
    rewrite (init_from_stride base_layer_check items sizes size0 smallest
               vals (PyBool b) Hd Hb Hs Hs0 Hmin Hfit).
    rewrite Hint. simpl negb. cbv iota.
    assert (H1 : (int_value stride_arg <=? 0) = false) by (apply Z.leb_gt; lia).
    assert (H2 : (int_value stride_arg >? smallest) = false)
      by (destruct (Z.gtb_spec (int_value stride_arg) smallest);
          [ lia | reflexivity ]).
    rewrite H1, H2. reflexivity.
Qed.

Lemma layer_constructed_iff_witness :
  instance (fun _ => None) (PyTuple [PyInt 4; PyInt 4])
    (PyTuple [PyInt 2; PyInt 2]) (PyInt 2) (PyList []) (PyBool true)
    (mkLayer (Some (PyTuple [PyInt 4; PyInt 4])) (Some 16)
       (Some (PyTuple [PyInt 2; PyInt 2])) (Some (PyInt 2))
       (Some (PyBool true)) (Some (PyList []))).
Proof.
  apply (layer_constructed_iff (fun _ => None)).
  exists [PyInt 4; PyInt 4], [PyInt 2; PyInt 2], (PyInt 2), 4, true.
  repeat split; simpl; lia.
Defined.

(** Only the first entry of [filter_size] is compared with the image:
    replacing the later entries by any other ints changes neither
    whether the constructor raises nor what it raises. *)
Theorem filter_size_tail_unchecked :
  forall base_layer_check items size0 rest rest' stride_arg vals random_arg,
  forallb isinstance_int rest = true ->
  forallb isinstance_int rest' = true ->
  fst (__init__ base_layer_check (PyTuple items) (PyTuple (size0 :: rest))
         stride_arg vals random_arg new)
  = fst (__init__ base_layer_check (PyTuple items) (PyTuple (size0 :: rest'))
           stride_arg vals random_arg new).
Proof.
  intros base_layer_check items size0 rest rest' stride_arg vals random_arg
         Hrest Hrest'.
  unfold __init__, BaseLayer__init__, bind, lift, modify, getattr, ret, raise,
    py_getitem.
  simpl. rewrite Hrest, Hrest'.
  destruct (forallb isinstance_int items); simpl; [ | reflexivity ].
  destruct (base_layer_check (math_prod items)); simpl; [ reflexivity | ].
  destruct (isinstance_int size0); simpl; [ | reflexivity ].
  destruct (py_min items) as [smallest | e]; simpl; [ | reflexivity ].
  destruct (int_value size0 >? smallest); simpl; [ reflexivity | ].
  destruct (isinstance_int stride_arg); simpl; [ | reflexivity ].
  destruct (int_value stride_arg <=? 0); simpl; [ reflexivity | ].
  destruct (int_value stride_arg >? smallest); simpl; [ reflexivity | ].
  destruct (isinstance_bool random_arg); reflexivity.
Qed.

Lemma filter_size_tail_unchecked_witness :
  fst (__init__ (fun _ => None) (PyTuple [PyInt 4; PyInt 4])
         (PyTuple [PyInt 2; PyInt 2]) (PyInt 2) (PyList []) (PyBool true) new)
  = fst (__init__ (fun _ => None) (PyTuple [PyInt 4; PyInt 4])
           (PyTuple [PyInt 2; PyInt 100]) (PyInt 2) (PyList []) (PyBool true)
           new).
Proof.
  apply (filter_size_tail_unchecked (fun _ => None) [PyInt 4; PyInt 4]
           (PyInt 2) [PyInt 2] [PyInt 100]); reflexivity.
Defined.

(** An empty [filter_size] passes the type check and then fails on
    [filter_size[0]] with an [IndexError]; only [img_dims] and
    [num_qubits] have been assigned. *)
Theorem empty_filter_size_index_error :
  forall base_layer_check items stride_arg vals random_arg,
  forallb isinstance_int items = true ->
  base_layer_check (math_prod items) = None ->
  __init__ base_layer_check (PyTuple items) (PyTuple []) stride_arg vals
    random_arg new
  = (Raise (IndexError "tuple index out of range"),
     mkLayer (Some (PyTuple items)) (Some (math_prod items))
       None None None None).
Proof.
  intros base_layer_check items stride_arg vals random_arg Hd Hb.
  unfold __init__, BaseLayer__init__, bind, lift, modify, getattr, ret, raise.
  simpl. rewrite Hd. simpl. rewrite Hb. reflexivity.
Qed.

Lemma empty_filter_size_index_error_witness :
  fst (__init__ (fun _ => None) (PyTuple [PyInt 4; PyInt 4]) (PyTuple [])
         (PyInt 1) (PyList []) (PyBool true) new)
  = Raise (IndexError "tuple index out of range").
Proof.
  rewrite (empty_filter_size_index_error (fun _ => None) [PyInt 4; PyInt 4]
             (PyInt 1) (PyList []) (PyBool true) eq_refl eq_refl).
  reflexivity.
Defined.

(** An empty [img_dims] passes the type check; with a non-empty tuple
    of ints as [filter_size] the constructor then fails inside
    [min(self.img_dims)] with the [ValueError] of [min]. *)
Theorem empty_img_dims_value_error :
  forall base_layer_check size0 rest stride_arg vals random_arg,
  base_layer_check 1 = None ->
  forallb isinstance_int (size0 :: rest) = true ->
  exists msg,
    __init__ base_layer_check (PyTuple []) (PyTuple (size0 :: rest)) stride_arg
      vals random_arg new
    = (Raise (ValueError msg),
       mkLayer (Some (PyTuple [])) (Some 1) None None None None).
Proof.
  intros base_layer_check size0 rest stride_arg vals random_arg Hb Hs.
  unfold __init__, BaseLayer__init__, bind, lift, modify, getattr, ret, raise,
    py_getitem.
  simpl. simpl in Hb. change (math_prod []) with 1. rewrite Hb.
  simpl in Hs. rewrite Hs. eexists. reflexivity.
Qed.

Lemma empty_img_dims_value_error_witness :
  exists msg,
    __init__ (fun _ => None) (PyTuple []) (PyTuple [PyInt 2; PyInt 2])
      (PyInt 1) (PyList []) (PyBool true) new
    = (Raise (ValueError msg),
       mkLayer (Some (PyTuple [])) (Some 1) None None None None).
Proof.
  apply (empty_img_dims_value_error (fun _ => None) (PyInt 2) [PyInt 2]
           (PyInt 1) (PyList []) (PyBool true)); reflexivity.
Defined.

End QuanvolutionalLayerProofs.
